(** * Term_GPT: the session synchronization core of [main.py]

    A shallow embedding of the multi-session chat application: the session
    store (one JSON-lines log per session in [chat_history/]), the tab strip,
    the navigation tree, the per-session message views and the send path,
    followed by the properties of the specification that were checked
    against it. *)

From Stdlib Require Import Ascii String List Arith Lia Bool Sorted.
From stdpp Require Import base option list strings gmap fin_maps.

Local Open Scope string_scope.
Local Open Scope list_scope.

(** ** Python string primitives used by [main.py]

    Strings are ASCII text; the Unicode white space and Unicode digits that
    Python's [str.strip] and [\d] also accept lie outside this model. *)

Module PyStr.

Definition chars (s : string) : list ascii := list_ascii_of_string s.
Definition of_chars (l : list ascii) : string := string_of_list_ascii l.

(** [str.isspace] on the ASCII range: TAB..CR, FS..US and the blank. *)
Definition is_space (c : ascii) : bool :=
  let n := nat_of_ascii c in
  ((9 <=? n)%nat && (n <=? 13)%nat) || ((28 <=? n)%nat && (n <=? 32)%nat).

Definition is_digit (c : ascii) : bool :=
  let n := nat_of_ascii c in (48 <=? n)%nat && (n <=? 57)%nat.

Fixpoint lstrip_chars (l : list ascii) : list ascii :=
  match l with
  | c :: l' => if is_space c then lstrip_chars l' else l
  | [] => []
  end.

(** [s.strip()] *)
Definition strip (s : string) : string :=
  of_chars (rev (lstrip_chars (rev (lstrip_chars (chars s))))).

(** [s.startswith(p)] *)
Definition startswith (s p : string) : bool := String.prefix p s.

(** [s[n:]] *)
Definition slice_from (n : nat) (s : string) : string :=
  of_chars (drop n (chars s)).

(** [s.split(sep)] for a one-character separator. *)
Fixpoint split_chars (sep : ascii) (cur : list ascii) (l : list ascii)
  : list string :=
  match l with
  | [] => [of_chars (rev cur)]
  | c :: l' =>
      if Ascii.eqb c sep then of_chars (rev cur) :: split_chars sep [] l'
      else split_chars sep (c :: cur) l'
  end.

Definition split (sep : ascii) (s : string) : list string :=
  split_chars sep [] (chars s).

Definition digit_val (c : ascii) : nat := nat_of_ascii c - 48.
Definition digit_char (d : nat) : ascii := ascii_of_nat (48 + d).

(** [int(s)] on a string of decimal digits (the only strings [main.py]
    passes to it, see [list_session_ids_shape]). *)
Definition int (s : string) : nat :=
  fold_left (fun acc c => 10 * acc + digit_val c) (chars s) 0.

Fixpoint decimal_fuel (fuel n : nat) (acc : list ascii) : list ascii :=
  match fuel with
  | 0 => acc
  | S fuel' =>
      let acc' := digit_char (n mod 10) :: acc in
      if (n <? 10)%nat then acc' else decimal_fuel fuel' (n / 10) acc'
  end.

(** [str(n)] for a natural number. *)
Definition decimal (n : nat) : list ascii := decimal_fuel (S n) n [].

(** [f"{n:03d}"]: decimal, padded with zeros to at least three digits. *)
Definition format_03d (n : nat) : string :=
  let ds := decimal n in
  of_chars (replicate (3 - length ds) "0"%char ++ ds).

End PyStr.

(** ** The history directory and session ids *)

(** One line of a session log, classified by what [line.strip()],
    [json.loads] and [rec.get] make of it: a blank line, an object with
    its optional string fields ["role"] and ["content"], a JSON value that
    is not an object (so that [rec.get] raises), or text that does not
    parse (with the message of the error).  The time stamp of a record is
    not read back by the application and is left out.  [save_message]
    writes [Rec] lines only. *)
Inductive jsonl_line : Type :=
  | Blank
  | Rec (role content : option string)
  | NotObject
  | Malformed (msg : string).

(** The contents of [HISTORY_DIR]: file name (relative to the directory)
    to the lines of the file. *)
Abbreviation directory := (gmap string (list jsonl_line)).

(** [SESSION_PATTERN.match(name)], returning group 1. *)
Definition SESSION_PATTERN_match (name : string) : option string :=
  let cs := PyStr.chars name in
  let ds := take 3 (drop 5 cs) in
  if bool_decide (take 5 cs = PyStr.chars "chat_")
     && (length ds =? 3)%nat && forallb PyStr.is_digit ds
     && bool_decide (drop 8 cs = PyStr.chars ".jsonl")
  then Some (PyStr.of_chars ds) else None.

(** [glob("chat_*.jsonl")] on a file name. *)
Definition glob_match (name : string) : bool :=
  let cs := PyStr.chars name in
  (11 <=? length cs)%nat
  && bool_decide (take 5 cs = PyStr.chars "chat_")
  && bool_decide (drop (length cs - 6) cs = PyStr.chars ".jsonl").

(** The sort key [lambda s: int(s.split("_")[1])]. *)
Definition ordinal (s : string) : nat :=
  PyStr.int (nth 1 (PyStr.split "_" s) "").

(** [list.sort(key=...)]: a stable insertion sort. *)
Fixpoint insert_by (key : string -> nat) (x : string) (l : list string)
  : list string :=
  match l with
  | [] => [x]
  | y :: l' =>
      if (key x <=? key y)%nat then x :: l else y :: insert_by key x l'
  end.

Definition sort_by (key : string -> nat) (l : list string) : list string :=
  foldr (insert_by key) [] l.

(** The order [sort_by] sorts into. *)
Definition key_le (key : string -> nat) (a b : string) : Prop :=
  key a <= key b.

Definition list_session_ids (fs : directory) : list string :=
  let ids :=
    omap (fun name =>
            if glob_match name
            then (fun g => "chat_" +:+ g) <$> SESSION_PATTERN_match name
            else None)
         (map_to_list fs).*1 in
  sort_by ordinal ids.

Definition next_session_id (fs : directory) : string :=
  match last (list_session_ids fs) with
  | None => "chat_001"
  | Some l => "chat_" +:+ PyStr.format_03d (ordinal l + 1)
  end.

Definition session_file (session_id : string) : string :=
  session_id +:+ ".jsonl".

(** ** Application state

    The widgets of the toolkit are modelled by what [main.py] reads back from
    them: the tab strip is the ordered list of panes returned by
    [tabs.query(TabPane)] together with [tabs.active], the navigation tree is
    the list of leaves under its root together with its cursor, a message
    view is the list of bubbles mounted in it.  Widgets created at run time
    (bubbles, tree leaves) carry a serial number that stands for their
    object identity. *)

(** An exception, identified with the text [str(e)] that the code
    interpolates into its messages. *)
Definition exn : Type := string.

Record bubble : Type := Bubble { b_id : nat; b_role : string; b_content : string }.

(** A [VerticalScroll]; [v_attached] records whether it was mounted into a
    pane when it was created. *)
Record view : Type := View { v_attached : bool; v_bubbles : list bubble }.

Record pane : Type := Pane { p_id : string; p_title : string }.

Record node : Type := Node { n_id : nat; n_data : string; n_label : string }.

Record App : Type := MkApp {
  files : directory;                 (* chat_history/ *)
  panes : list pane;                 (* tabs.query(TabPane) *)
  active : string;                   (* tabs.active *)
  views : gmap string view;          (* self.views *)
  tree_children : list node;         (* tree.root.children *)
  tree_cursor : option nat;          (* the leaf selected in the tree *)
  tree_nodes : gmap string nat;      (* self.tree_nodes *)
  _last_tree_sid : option string;    (* self._last_tree_sid *)
  _syncing_ui : bool;                (* self._syncing_ui *)
  ta_text : string;                  (* the TextArea "#in" *)
  next_widget : nat                  (* serial number of the next widget *)
}.

Definition set_files (f : directory -> directory) (s : App) : App :=
  MkApp (f (files s)) (panes s) (active s) (views s) (tree_children s)
        (tree_cursor s) (tree_nodes s) (_last_tree_sid s) (_syncing_ui s)
        (ta_text s) (next_widget s).
Definition set_panes (f : list pane -> list pane) (s : App) : App :=
  MkApp (files s) (f (panes s)) (active s) (views s) (tree_children s)
        (tree_cursor s) (tree_nodes s) (_last_tree_sid s) (_syncing_ui s)
        (ta_text s) (next_widget s).
Definition set_active (a : string) (s : App) : App :=
  MkApp (files s) (panes s) a (views s) (tree_children s)
        (tree_cursor s) (tree_nodes s) (_last_tree_sid s) (_syncing_ui s)
        (ta_text s) (next_widget s).
Definition set_views (f : gmap string view -> gmap string view) (s : App) : App :=
  MkApp (files s) (panes s) (active s) (f (views s)) (tree_children s)
        (tree_cursor s) (tree_nodes s) (_last_tree_sid s) (_syncing_ui s)
        (ta_text s) (next_widget s).
Definition set_tree_children (f : list node -> list node) (s : App) : App :=
  MkApp (files s) (panes s) (active s) (views s) (f (tree_children s))
        (tree_cursor s) (tree_nodes s) (_last_tree_sid s) (_syncing_ui s)
        (ta_text s) (next_widget s).
Definition set_tree_cursor (c : option nat) (s : App) : App :=
  MkApp (files s) (panes s) (active s) (views s) (tree_children s)
        c (tree_nodes s) (_last_tree_sid s) (_syncing_ui s)
        (ta_text s) (next_widget s).
Definition set_tree_nodes (f : gmap string nat -> gmap string nat) (s : App) : App :=
  MkApp (files s) (panes s) (active s) (views s) (tree_children s)
        (tree_cursor s) (f (tree_nodes s)) (_last_tree_sid s) (_syncing_ui s)
        (ta_text s) (next_widget s).
Definition set_last_tree_sid (l : option string) (s : App) : App :=
  MkApp (files s) (panes s) (active s) (views s) (tree_children s)
        (tree_cursor s) (tree_nodes s) l (_syncing_ui s)
        (ta_text s) (next_widget s).
Definition set_syncing_ui (b : bool) (s : App) : App :=
  MkApp (files s) (panes s) (active s) (views s) (tree_children s)
        (tree_cursor s) (tree_nodes s) (_last_tree_sid s) b
        (ta_text s) (next_widget s).
Definition set_ta_text (t : string) (s : App) : App :=
  MkApp (files s) (panes s) (active s) (views s) (tree_children s)
        (tree_cursor s) (tree_nodes s) (_last_tree_sid s) (_syncing_ui s)
        t (next_widget s).
Definition set_next_widget (n : nat) (s : App) : App :=
  MkApp (files s) (panes s) (active s) (views s) (tree_children s)
        (tree_cursor s) (tree_nodes s) (_last_tree_sid s) (_syncing_ui s)
        (ta_text s) n.

(** ** A state and exception monad for the event handlers

    A handler runs on the application state and either returns or raises;
    the mutations made before an exception stay in place, as in Python. *)

Inductive outcome (A : Type) : Type :=
  | Ok (a : A) (s : App)
  | Raise (e : exn) (s : App).
Arguments Ok {A} a s.
Arguments Raise {A} e s.

Definition state_of {A} (o : outcome A) : App :=
  match o with Ok _ s => s | Raise _ s => s end.

Definition M (A : Type) : Type := App -> outcome A.

Definition ret {A} (a : A) : M A := fun s => Ok a s.
Definition bind {A B} (m : M A) (k : A -> M B) : M B :=
  fun s => match m s with
           | Ok a s' => k a s'
           | Raise e s' => Raise e s'
           end.
Definition raise {A} (e : exn) : M A := fun s => Raise e s.
Definition gets {A} (f : App -> A) : M A := fun s => Ok (f s) s.
Definition modify (f : App -> App) : M unit := fun s => Ok tt (f s).

(** [try: m except Exception as e: h e] *)
Definition try_except {A} (m : M A) (h : exn -> M A) : M A :=
  fun s => match m s with
           | Ok a s' => Ok a s'
           | Raise e s' => h e s'
           end.

(** [try: m finally: f] *)
Definition try_finally {A} (m : M A) (f : M unit) : M A :=
  fun s => match m s with
           | Ok a s' => match f s' with
                        | Ok _ s'' => Ok a s''
                        | Raise e s'' => Raise e s''
                        end
           | Raise e s' => match f s' with
                           | Ok _ s'' => Raise e s''
                           | Raise e' s'' => Raise e' s''
                           end
           end.

Declare Scope py_scope.
Delimit Scope py_scope with py.
Notation "x <- m ;; k" := (bind m (fun x => k))
  (at level 100, m at next level, right associativity) : py_scope.
Notation "m ;; k" := (bind m (fun _ => k))
  (at level 100, right associativity) : py_scope.
Local Open Scope py_scope.

(** Python truthiness of a string and of an optional string. *)
Definition truthy (s : string) : bool := negb (String.eqb s "").

Definition or_else (o : option string) (d : string) : string :=
  match o with
  | Some x => if truthy x then x else d
  | None => d
  end.

(** ** The collaborators outside [main.py]

    What the handlers cannot decide themselves: whether a toolkit or
    operating-system call raises, what the clock shows, and what the
    completion service answers.  Every theorem below holds for all of them. *)
Record World : Type := MkWorld {
  (* tree.select_node(node): the exception it raises, if any *)
  tree_select_node : option nat -> option exn;
  (* os.remove(path) *)
  os_remove : string -> option exn;
  (* view.mount(md) on a view that is not attached to a pane *)
  mount_detached : option exn;
  (* pane.title = t *)
  pane_set_title : string -> option exn;
  (* node.set_label(t) *)
  node_set_label : string -> option exn;
  (* datetime.now().strftime('%b %d, %H:%M') *)
  clock : string;
  (* client.responses.create(...).output_text for a prompt, or the error *)
  responses_create : string -> string + exn
}.

Section Handlers.

Context (w : World).

(** *** Toolkit operations *)

Definition get_pane (session_id : string) : M (option pane) :=
  gets (fun s => List.find (fun p => String.eqb (p_id p) session_id) (panes s)).

(** [tabs.add_pane(pane)], with its fallback [tabs.mount(pane)]: either
    way the pane ends up last in the tab strip. *)
Definition add_pane (p : pane) : M unit :=
  modify (set_panes (fun ps => ps ++ [p])).

Fixpoint remove_first (session_id : string) (ps : list pane) : list pane :=
  match ps with
  | [] => []
  | p :: ps' =>
      if String.eqb (p_id p) session_id then ps'
      else p :: remove_first session_id ps'
  end.

(** [tabs.remove_pane(session_id)], with its fallback [pane.remove()]: the
    first pane with that id leaves the tab strip; nothing happens when
    there is none. *)
Definition remove_pane (session_id : string) : M unit :=
  modify (set_panes (remove_first session_id)).

(** [tree.select_node(node)] *)
Definition select_node (n : option nat) : M unit :=
  match tree_select_node w n with
  | Some e => raise e
  | None => modify (set_tree_cursor n)
  end.

(** [md.remove()] for the bubble with serial number [md]. *)
Definition widget_remove (md : nat) : M unit :=
  modify (set_views (fmap (fun v =>
    View (v_attached v)
         (List.filter (fun b => negb (b_id b =? md)%nat) (v_bubbles v))))).

(** *** Bubbles and persistence *)

Definition _active_session_id : M string := gets active.

Definition _current_view (session_id : string) : M string :=
  a <- _active_session_id ;;
  let sid := if truthy session_id then session_id else a in
  v <- gets (fun s => views s !! sid) ;;
  match v with
  | Some _ => ret sid
  | None =>
      pane <- get_pane sid ;;
      modify (set_views <[ sid := View (bool_decide (is_Some pane)) [] ]>) ;;
      ret sid
  end.

Definition add_message (role content session_id : string) : M nat :=
  key <- _current_view session_id ;;
  v <- gets (fun s => default (View false []) (views s !! key)) ;;
  md <- gets next_widget ;;
  modify (set_next_widget (S md)) ;;
  (if v_attached v then ret tt
   else match mount_detached w with
        | Some e => raise e
        | None => ret tt
        end) ;;
  modify (set_views
            <[ key := View (v_attached v)
                           (v_bubbles v ++ [Bubble md role content]) ]>) ;;
  ret md.

Definition _system_bubble (session_id text : string) : M unit :=
  add_message "system" text session_id ;; ret tt.

Definition save_message (role content session_id : string) : M unit :=
  let path := session_file session_id in
  modify (set_files (fun fs =>
    <[ path := default [] (fs !! path) ++ [Rec (Some role) (Some content)] ]> fs)).

(** The loop of [load_history] over the lines of the log. *)
Fixpoint load_lines (session_id : string) (lines : list jsonl_line) : M unit :=
  match lines with
  | [] => ret tt
  | Blank :: rest => load_lines session_id rest
  | Rec role content :: rest =>
      add_message (default "assistant" role) (default "" content) session_id ;;
      load_lines session_id rest
  | NotObject :: _ => raise "object has no attribute 'get'"
  | Malformed msg :: _ => raise msg
  end.

Definition load_history (session_id : string) : M unit :=
  let path := session_file session_id in
  f <- gets (fun s => files s !! path) ;;
  match f with
  | None => ret tt
  | Some lines =>
      try_except (load_lines session_id lines)
        (fun e =>
           _system_bubble session_id
             ("_Couldn’t load history for " +:+ session_id +:+ ": " +:+ e +:+ "_"))
  end.

(** *** Tabs and tree *)

Definition _create_tab_for_session
    (session_id : string) (switch load_hist welcome : bool)
    (title : option string) : M unit :=
  add_pane (Pane (or_else title session_id) session_id) ;;
  (if switch then modify (set_active session_id) else ret tt) ;;
  modify (set_views <[ session_id := View true [] ]>) ;;
  if load_hist then load_history session_id
  else if welcome then
    _system_bubble session_id "_New chat started. Press Ctrl+Enter to send._"
  else ret tt.

Definition _add_tree_node_for_session (session_id label : string) : M unit :=
  n <- gets next_widget ;;
  modify (set_next_widget (S n)) ;;
  modify (set_tree_children (fun c => c ++ [Node n session_id label])) ;;
  modify (set_tree_nodes <[ session_id := n ]>).

Definition _select_tree_node (session_id : string) : M unit :=
  nd <- gets (fun s => tree_nodes s !! session_id) ;;
  match nd with
  | Some n =>
      select_node (Some n) ;;
      modify (set_last_tree_sid (Some session_id))
  | None => ret tt
  end.

(** [self._syncing_ui = True; try: m finally: self._syncing_ui = False] *)
Definition silently {A} (m : M A) : M A :=
  modify (set_syncing_ui true) ;;
  try_finally m (modify (set_syncing_ui false)).

Definition _remove_tree_node (session_id : string) : M unit :=
  nd <- gets (fun s => tree_nodes s !! session_id) ;;
  modify (set_tree_nodes (delete session_id)) ;;
  (match nd with
   | Some n =>
       modify (set_tree_children
                 (List.filter (fun c => negb (n_id c =? n)%nat)))
   | None => ret tt
   end) ;;
  children <- gets tree_children ;;
  match children with
  | c :: _ =>
      silently
        (select_node (Some (n_id c)) ;;
         modify (set_last_tree_sid
                   (Some (if truthy (n_data c) then n_data c else n_label c))))
  | [] =>
      silently
        (select_node None ;;
         modify (set_last_tree_sid None))
  end.

(** [open(path, "a").close()]: the file exists afterwards, its contents
    kept. *)
Definition touch (path : string) : M unit :=
  modify (set_files (fun fs => <[ path := default [] (fs !! path) ]> fs)).

Definition action_new_tab : M unit :=
  sid <- gets (fun s => next_session_id (files s)) ;;
  touch (session_file sid) ;;
  _create_tab_for_session sid true false true None ;;
  _add_tree_node_for_session sid sid ;;
  silently (_select_tree_node sid).

Fixpoint index_of (session_id : string) (ps : list pane) : option nat :=
  match ps with
  | [] => None
  | p :: ps' =>
      if String.eqb (p_id p) session_id then Some 0
      else S <$> index_of session_id ps'
  end.

Definition _close_tab_only (session_id : string) : M unit :=
  ps <- gets panes ;;
  if (length ps <=? 1)%nat then
    _system_bubble session_id
      "_Can't close the last chat. Create a new one first (Ctrl+N)._"
  else
    let idx := default 0 (index_of session_id ps) in
    let new_idx := if (idx <? length ps - 1)%nat then idx + 1 else idx - 1 in
    let new_active := default "" (p_id <$> ps !! new_idx) in
    remove_pane session_id ;;
    modify (set_views (delete session_id)) ;;
    remaining <- gets (fun s => p_id <$> panes s) ;;
    match remaining with
    | [] => ret tt
    | r0 :: _ =>
        let active_id :=
          if bool_decide (new_active ∈ remaining) then new_active else r0 in
        modify (set_active active_id) ;;
        silently (_select_tree_node active_id)
    end.

(** [os.path.basename]: paths are already relative to [HISTORY_DIR]. *)
Definition basename (path : string) : string := path.

Definition _permanently_delete_chat (session_id : string) : M unit :=
  ps <- gets panes ;;
  (if (length ps <=? 1)%nat then
     new_sid <- gets (fun s => next_session_id (files s)) ;;
     touch (session_file new_sid) ;;
     _create_tab_for_session new_sid true false true None ;;
     _add_tree_node_for_session new_sid new_sid ;;
     silently (_select_tree_node new_sid)
   else ret tt) ;;
  _close_tab_only session_id ;;
  (let path := session_file session_id in
   try_except
     (ex <- gets (fun s => bool_decide (is_Some (files s !! path))) ;;
      if ex then
        match os_remove w path with
        | Some e => raise e
        | None => modify (set_files (delete path))
        end
      else ret tt)
     (fun _ =>
        a <- _active_session_id ;;
        if truthy a then
          _system_bubble a ("_Warning: couldn't delete **" +:+ basename path +:+ "**_")
        else ret tt)) ;;
  _remove_tree_node session_id.

Definition action_close_tab : M unit :=
  sid <- _active_session_id ;;
  if truthy sid then _permanently_delete_chat sid else ret tt.

(** [pane.title = t] for the pane returned by [get_pane]. *)
Fixpoint retitle (session_id t : string) (ps : list pane) : list pane :=
  match ps with
  | [] => []
  | p :: ps' =>
      if String.eqb (p_id p) session_id then Pane (p_id p) t :: ps'
      else p :: retitle session_id t ps'
  end.

Definition set_pane_title (session_id t : string) : M unit :=
  match pane_set_title w t with
  | Some e => raise e
  | None => modify (set_panes (retitle session_id t))
  end.

(** [node.set_label(t)] for the leaf with serial number [n]. *)
Definition set_label (n : nat) (t : string) : M unit :=
  match node_set_label w t with
  | Some e => raise e
  | None =>
      modify (set_tree_children
                (List.map (fun c => if (n_id c =? n)%nat
                                    then Node (n_id c) (n_data c) t else c)))
  end.

Definition ta_clear : M unit := modify (set_ta_text "").

Definition action_rename_tab : M unit :=
  sid <- gets active ;;
  if negb (truthy sid) then ret tt else
  raw <- gets (fun s => PyStr.strip (ta_text s)) ;;
  let new_title := if truthy raw then raw else "Chat " +:+ clock w in
  (if truthy raw then ta_clear else ret tt) ;;
  pane <- get_pane sid ;;
  match pane with
  | None => ret tt
  | Some _ =>
      try_except
        (set_pane_title sid new_title ;;
         nd <- gets (fun s => tree_nodes s !! sid) ;;
         match nd with
         | Some n => set_label n new_title
         | None => ret tt
         end)
        (fun _ =>
           _system_bubble sid
             ("_Rename not supported. Suggested name: **" +:+ new_title +:+ "**_"))
  end.

(** *** The tree selection handler *)

(** [Tree.NodeSelected]: what the handler reads of [event.node]. *)
Record tree_event : Type :=
  NodeSelected { node_is_root : bool; node_data : option string }.

Definition on_tree_node_selected (event : tree_event) : M unit :=
  syncing <- gets _syncing_ui ;;
  if node_is_root event || syncing then ret tt else
  let sid := PyStr.strip (or_else (node_data event) "") in
  if negb (truthy sid) then ret tt else
  modify (set_last_tree_sid (Some sid)) ;;
  a <- gets active ;;
  if String.eqb a sid then ret tt else
  pane <- get_pane sid ;;
  match pane with
  | None => _create_tab_for_session sid true true false None
  | Some _ => modify (set_active sid)
  end.

(** *** Buttons *)

Definition on_button_pressed (bid : string) : M unit :=
  if String.eqb bid "btn_new" then action_new_tab
  else if String.eqb bid "btn_delete" then
    l <- gets _last_tree_sid ;;
    a <- _active_session_id ;;
    let sid := or_else l a in
    if truthy sid then _permanently_delete_chat sid else ret tt
  else ret tt.

(** *** Send *)

(** A request handed to the completion service: the session it was sent
    from, the placeholder bubble and the prompt. *)
Record request : Type :=
  Request { r_sid : string; r_typing_md : nat; r_prompt : string }.

(** [model_response] up to the [await]: [None] when nothing was
    dispatched. *)
Definition model_response_dispatch : M (option request) :=
  sid <- _active_session_id ;;
  if negb (truthy sid) then ret None else
  prompt_input <- gets (fun s => PyStr.strip (ta_text s)) ;;
  if negb (truthy prompt_input) then ret None else
  if PyStr.startswith prompt_input "/rename " then
    let new_title :=
      PyStr.strip (PyStr.slice_from (String.length "/rename ") prompt_input) in
    ta_clear ;;
    pane <- get_pane sid ;;
    (match pane with
     | None => ret tt
     | Some p =>
         try_except
           (set_pane_title sid (if truthy new_title then new_title else p_title p) ;;
            nd <- gets (fun s => tree_nodes s !! sid) ;;
            match nd with
            | Some n => if truthy new_title then set_label n new_title else ret tt
            | None => ret tt
            end)
           (fun _ =>
              _system_bubble sid
                ("_Rename not supported. Suggested name: **" +:+ new_title +:+ "**_"))
     end) ;;
    ret None
  else if String.eqb prompt_input "/new" then
    ta_clear ;; action_new_tab ;; ret None
  else if String.eqb prompt_input "/close" then
    ta_clear ;; action_close_tab ;; ret None
  else if String.eqb prompt_input "/delete" then
    ta_clear ;; _permanently_delete_chat sid ;; ret None
  else
    add_message "user" prompt_input sid ;;
    save_message "user" prompt_input sid ;;
    ta_clear ;;
    typing_md <- add_message "status" "_Thinking…_" sid ;;
    ret (Some (Request sid typing_md prompt_input)).

(** [model_response] after the [await], given what the call returned or
    raised. *)
Definition model_response_deliver (r : request) (response : string + exn)
  : M unit :=
  let output :=
    match response with
    | inl text => text
    | inr e => "**Error:** `" +:+ e +:+ "`"
    end in
  widget_remove (r_typing_md r) ;;
  add_message "assistant" output (r_sid r) ;;
  save_message "assistant" output (r_sid r).

Definition model_response : M unit :=
  r <- model_response_dispatch ;;
  match r with
  | None => ret tt
  | Some r => model_response_deliver r (responses_create w (r_prompt r))
  end.

Definition action_send : M unit := model_response.

(** *** Start-up *)

Fixpoint mount_existing (existing : list string) : M unit :=
  match existing with
  | [] => ret tt
  | sid :: rest =>
      _create_tab_for_session sid false true false None ;;
      _add_tree_node_for_session sid sid ;;
      mount_existing rest
  end.

Definition on_mount : M unit :=
  modify (set_views (fun _ => ∅)) ;;
  modify (set_tree_nodes (fun _ => ∅)) ;;
  existing <- gets (fun s => list_session_ids (files s)) ;;
  silently
    (match last existing with
     | Some l =>
         mount_existing existing ;;
         modify (set_active l) ;;
         _select_tree_node l
     | None =>
         sid <- gets (fun s => next_session_id (files s)) ;;
         touch (session_file sid) ;;
         _create_tab_for_session sid true false true None ;;
         _add_tree_node_for_session sid sid ;;
         _select_tree_node sid
     end).

End Handlers.

(** The application before [on_mount]: the history directory as found on
    disk, no widget populated. *)
Definition fresh_app (fs : directory) : App :=
  MkApp fs [] "" ∅ [] None ∅ None false "" 0.

(** ** A Hoare logic for the handlers

    [hoare P m Q E]: started in a state satisfying [P], the handler [m]
    either returns a value and a state related by [Q], or raises in a
    state satisfying [E]. *)

Definition hoare {A} (P : App -> Prop) (m : M A)
    (Q : A -> App -> Prop) (E : App -> Prop) : Prop :=
  forall s, P s ->
    match m s with
    | Ok a s' => Q a s'
    | Raise _ s' => E s'
    end.

(** [stable I m]: the handler keeps [I], however it ends. *)
Definition stable {A} (I : App -> Prop) (m : M A) : Prop :=
  hoare I m (fun _ => I) I.

(** A property of the tab strip alone. *)
Definition on_panes (Φ : list pane -> Prop) (s : App) : Prop := Φ (panes s).

(** At least one session (tab pane) is open. *)
Definition has_session : App -> Prop := on_panes (fun ps => 1 <= length ps).

(** The operations of the tab lifecycle manager, as the user reaches
    them. *)
Inductive user_op : Type :=
  | newSession
  | closeTab (session_id : string)
  | deleteSession (session_id : string).

Definition perform (w : World) (op : user_op) : M unit :=
  match op with
  | newSession => action_new_tab w
  | closeTab sid => _close_tab_only w sid
  | deleteSession sid => _permanently_delete_chat w sid
  end.

(** The state after a sequence of operations; an operation that raises
    leaves the state it reached. *)
Fixpoint perform_all (w : World) (ops : list user_op) (s : App) : App :=
  match ops with
  | [] => s
  | op :: rest => perform_all w rest (state_of (perform w op s))
  end.

(** Three sample worlds: one in which nothing fails and the service echoes
    the prompt, one in which every [tree.select_node] raises, one in which
    the service times out and the toolkit refuses to mount into a detached
    view. *)
Definition quiet_world : World :=
  MkWorld (fun _ => None) (fun _ => None) None (fun _ => None) (fun _ => None)
          "Nov 03, 09:00" (fun prompt => inl ("echo: " +:+ prompt)).


Definition failing_world : World :=
  MkWorld (fun _ => None) (fun _ => None) (Some "MountError")
          (fun _ => None) (fun _ => None)
          "Nov 03, 09:00" (fun _ => inr "Request timed out.").

(** ** Vocabulary for the statements *)

(** The bubbles shown for a session. *)
Definition bubbles_of (s : App) (sid : string) : list bubble :=
  match views s !! sid with
  | Some v => v_bubbles v
  | None => []
  end.

(** Whether a bubble for [sid] lands in a view that is mounted in a pane:
    the view registered for [sid] is attached, or none is registered and a
    pane with that id exists to receive a new one. *)
Definition view_attached (s : App) (sid : string) : bool :=
  match views s !! sid with
  | Some v => v_attached v
  | None =>
      bool_decide (is_Some (List.find (fun p => String.eqb (p_id p) sid) (panes s)))
  end.

(** The state after one more bubble was mounted in the view of [sid]. *)
Definition mount_bubble (sid role content : string) (s : App) : App :=
  set_views
    <[ sid := View (view_attached s sid)
                   (bubbles_of s sid ++ [Bubble (next_widget s) role content]) ]>
    (set_next_widget (S (next_widget s)) s).

(** The state after one more record was appended to the log of [sid]. *)
Definition append_log (sid : string) (line : jsonl_line) (s : App) : App :=
  set_files (fun fs =>
    <[ session_file sid := default [] (fs !! session_file sid) ++ [line] ]> fs) s.

(** The state after the bubble with serial number [md] was removed. *)
Definition without_widget (md : nat) (s : App) : App :=
  set_views (fmap (fun v =>
    View (v_attached v)
         (List.filter (fun b => negb (b_id b =? md)%nat) (v_bubbles v)))) s.

(** What the user sees for the outcome of a completion request. *)
Definition output_of (response : string + exn) : string :=
  match response with
  | inl text => text
  | inr e => "**Error:** `" +:+ e +:+ "`"
  end.

(** A log line [load_history] gets past: blank, or a JSON object. *)
Definition well_formed (l : jsonl_line) : bool :=
  match l with
  | Blank | Rec _ _ => true
  | NotObject | Malformed _ => false
  end.


(** The turn (role, content) a log line is displayed as. *)
Definition turn_of (l : jsonl_line) : option (string * string) :=
  match l with
  | Rec role content => Some (default "assistant" role, default "" content)
  | _ => None
  end.

(** Bubbles for a sequence of turns, numbered from [n]. *)
Fixpoint bubbles_from (n : nat) (turns : list (string * string)) : list bubble :=
  match turns with
  | [] => []
  | (role, content) :: rest => Bubble n role content :: bubbles_from (S n) rest
  end.

(** The state after a sequence of turns was mounted in the view of [sid]. *)
Fixpoint mount_all (sid : string) (turns : list (string * string)) (s : App)
  : App :=
  match turns with
  | [] => s
  | (role, content) :: rest => mount_all sid rest (mount_bubble sid role content s)
  end.


(** The inputs the send path does not forward to the completion service,
    in the words of the specification: exactly [/new], [/close],
    [/delete], or anything that begins with [/rename] and a blank. *)
Definition intercepted (p : string) : bool :=
  PyStr.startswith p "/rename " || String.eqb p "/new"
  || String.eqb p "/close" || String.eqb p "/delete".


(** Sample states: the application mounted on an empty history directory
    (one session, [chat_001]), and the same after one more new chat. *)
Definition one_session : App :=
  state_of (on_mount quiet_world (fresh_app ∅)).

Definition two_sessions : App :=
  state_of (action_new_tab quiet_world one_session).

(** A request in flight whose session was closed: in [two_sessions] the
    user sends "hi" from [chat_002] and closes that chat before the
    answer arrives. *)
Definition closed_while_waiting : App :=
  state_of (action_close_tab quiet_world
    (state_of (model_response_dispatch quiet_world
                 (set_ta_text "hi" two_sessions)))).


Definition two_logs : directory :=
  <[ "chat_001.jsonl" :=
       [Rec (Some "user") (Some "hi"); Rec (Some "assistant") (Some "hello")] ]>
    (<[ "chat_002.jsonl" :=
          [Rec (Some "user") (Some "2+2?"); Rec (Some "assistant") (Some "4")] ]> ∅).

Definition restored : App := state_of (on_mount quiet_world (fresh_app two_logs)).

(** ** The event boundary

    The actions of [BINDINGS] and the handlers Textual calls. *)
Inductive action : Type := send | new_tab | close_tab | rename_tab.

Inductive ui_event : Type :=
  | Mount
  | TreeNodeSelected (event : tree_event)
  | ButtonPressed (bid : string)
  | Key (a : action).

Definition run_action (w : World) (a : action) : M unit :=
  match a with
  | send => action_send w
  | new_tab => action_new_tab w
  | close_tab => action_close_tab w
  | rename_tab => action_rename_tab w
  end.

Definition handle (w : World) (ev : ui_event) : M unit :=
  match ev with
  | Mount => on_mount w
  | TreeNodeSelected event => on_tree_node_selected w event
  | ButtonPressed bid => on_button_pressed w bid
  | Key a => run_action w a
  end.

(** The two states of the selection synchronizer. *)
Definition Idle (s : App) : Prop := _syncing_ui s = false.


(** ** Further vocabulary *)

(** The ids [SESSION_PATTERN] recognises: [chat_] and three digits. *)
Definition is_session_id (id : string) : Prop :=
  exists ds, id = "chat_" +:+ PyStr.of_chars ds
             /\ length ds = 3
             /\ forallb PyStr.is_digit ds = true.




(** The log at [path] still begins with [lines]. *)
Definition log_extended (path : string) (lines : list jsonl_line) (s : App)
  : Prop :=
  exists more, files s !! path = Some (lines ++ more).

(** The events that reach [_permanently_delete_chat]: the close-chat key,
    the delete button, and a send of [/close] or [/delete]. *)
Definition deletes (ev : ui_event) (s : App) : bool :=
  match ev with
  | Key close_tab => true
  | ButtonPressed bid => String.eqb bid "btn_delete"
  | Key send =>
      String.eqb (PyStr.strip (ta_text s)) "/close"
      || String.eqb (PyStr.strip (ta_text s)) "/delete"
  | _ => false
  end.


(** Three sessions restored from their logs; [chat_003] is active. *)
Definition three_logs : directory :=
  <[ "chat_003.jsonl" := [Rec (Some "user") (Some "third")] ]> two_logs.

Definition three_sessions : App :=
  state_of (on_mount quiet_world (fresh_app three_logs)).

(** The sessions the application opens at start-up: those listed in the
    history directory, or a first one when none is. *)
Definition startup_ids (fs : directory) : list string :=
  match list_session_ids fs with
  | [] => ["chat_001"]
  | ids => ids
  end.

(** Tabs [P] and tree leaves [C], in order, every tab titled with its id
    and every leaf registered in [tree_nodes]. *)
Definition restored_as (P C : list string) (s : App) : Prop :=
  p_id <$> panes s = P
  /\ n_data <$> tree_children s = C
  /\ Forall (fun p => p_title p = p_id p) (panes s)
  /\ (forall id, id ∈ C -> is_Some (tree_nodes s !! id)).


(** The tab that takes over when the tab between [l1] and [l2] closes:
    the next one if there is one, else the previous one. *)
Definition neighbour (l1 l2 : list pane) : string :=
  match l2 with
  | q :: _ => p_id q
  | [] => default "" (p_id <$> last l1)
  end.



(** ** Copy mode *)

(** [s.upper()] on ASCII letters. *)
Definition upper_char (c : ascii) : ascii :=
  let n := nat_of_ascii c in
  if (97 <=? n)%nat && (n <=? 122)%nat then ascii_of_nat (n - 32) else c.

Definition upper (s : string) : string :=
  PyStr.of_chars (List.map upper_char (PyStr.chars s)).

(** [sep.join(parts)] *)
Fixpoint join (sep : string) (parts : list string) : string :=
  match parts with
  | [] => ""
  | [x] => x
  | x :: rest => x +:+ sep +:+ join sep rest
  end.

(** The separator of the transcript: two line feeds. *)
Definition blank_line : string :=
  String (ascii_of_nat 10) (String (ascii_of_nat 10) EmptyString).

(** The modal screen pushed by copy mode. *)
Record CopyScreen : Type := MkCopyScreen { _title : string; _text : string }.

(** The paragraph of the transcript for a record of the log. *)
Definition transcript_line (l : jsonl_line) : option string :=
  match l with
  | Rec role content => Some (upper (default "" role) +:+ ": " +:+ default "" content)
  | _ => None
  end.

Definition is_record (l : jsonl_line) : bool :=
  match l with
  | Rec _ _ => true
  | _ => false
  end.

Section CopyMode.

(** What [json.loads] raises on a line of white space, and what
    [tabs.get_tab(pane_id)] yields: nothing when it raises, else the
    tab's [label_text] and the text of its [label], if it has one. *)
Context (blank_error : exn)
        (get_tab : string -> option (string * option string)).

(** The exception the loop of copy mode stops with at a line. *)
Definition copy_error (l : jsonl_line) : option exn :=
  match l with
  | Rec _ _ => None
  | Blank => Some blank_error
  | NotObject => Some "object has no attribute 'get'"
  | Malformed msg => Some msg
  end.

(** The loop of [action_copy_mode]: the paragraphs collected in [lines],
    and the exception that ended the loop, if any. *)
Fixpoint read_transcript (log : list jsonl_line) (lines : list string)
  : list string * option exn :=
  match log with
  | [] => (lines, None)
  | Rec role content :: rest =>
      read_transcript rest
        (lines ++ [upper (default "" role) +:+ ": " +:+ default "" content])
  | Blank :: _ => (lines, Some blank_error)
  | NotObject :: _ => (lines, Some "object has no attribute 'get'")
  | Malformed msg :: _ => (lines, Some msg)
  end.

Definition _pane_title_str (pane_id : string) : M string :=
  nd <- gets (fun s => tree_nodes s !! pane_id) ;;
  children <- gets tree_children ;;
  let from_tree :=
    match nd with
    | Some n =>
        match List.find (fun c => (n_id c =? n)%nat) children with
        | Some c => if truthy (n_label c) then n_label c else pane_id
        | None => pane_id
        end
    | None => pane_id
    end in
  match get_tab pane_id with
  | Some (label_text, label) =>
      if truthy label_text then ret label_text
      else match label with
           | Some l => ret l
           | None => ret from_tree
           end
  | None => ret from_tree
  end.

(** [text = "\n\n".join(lines) if lines else "(empty)"] *)
Definition transcript_text (lines : list string) : string :=
  match lines with
  | [] => "(empty)"
  | _ => join blank_line lines
  end.

(** [action_copy_mode]: the screen pushed and the error notified, if
    any; nothing when no session is active. *)
Definition action_copy_mode : M (option (CopyScreen * option string)) :=
  sid <- _active_session_id ;;
  if negb (truthy sid) then ret None else
  f <- gets (fun s => files s !! session_file sid) ;;
  let '(lines, err) :=
    match f with
    | Some log => read_transcript log []
    | None => ([], None)
    end in
  title <- _pane_title_str sid ;;
  ret (Some (MkCopyScreen title (transcript_text lines),
             (fun e => "Couldn’t read history: " +:+ e) <$> err)).

End CopyMode.

(** The turns (role, content) a view shows for a session, in order. *)
Definition turns_shown (s : App) (sid : string) : list (string * string) :=
  (fun b => (b_role b, b_content b)) <$> bubbles_of s sid.

(** A log with a blank line between two records. *)
Definition log_with_blank_line : directory :=
  <[ "chat_001.jsonl" :=
       [Rec (Some "user") (Some "hi"); Blank;
        Rec (Some "assistant") (Some "hello")] ]> ∅.




(** * Properties *)

(** ** The primitives on sample inputs *)

Example strip_sample : PyStr.strip "  /new
 " = "/new".
Proof. reflexivity. Qed.

Example format_03d_samples :
  PyStr.format_03d 0 = "000" /\ PyStr.format_03d 7 = "007"
  /\ PyStr.format_03d 42 = "042" /\ PyStr.format_03d 1000 = "1000".
Proof. repeat split; reflexivity. Qed.

Example SESSION_PATTERN_samples :
  SESSION_PATTERN_match "chat_012.jsonl" = Some "012"
  /\ SESSION_PATTERN_match "chat_1000.jsonl" = None
  /\ SESSION_PATTERN_match "chat_01a.jsonl" = None.
Proof. repeat split; reflexivity. Qed.

Example next_session_id_sample :
  next_session_id
    (<[ "chat_002.jsonl" := [] ]>
       (<[ "chat_010.jsonl" := [] ]> (<[ "notes.txt" := [] ]> ∅)))
  = "chat_011".
Proof. vm_compute. reflexivity. Qed.

(** Past ordinal 999 the pattern no longer lists what the format writes:
    [chat_1000] is minted again although its log exists. *)
Example next_session_id_after_999 :
  next_session_id (<[ "chat_999.jsonl" := [] ]> ∅) = "chat_1000"
  /\ next_session_id
       (<[ "chat_1000.jsonl" := [] ]> (<[ "chat_999.jsonl" := [] ]> ∅))
     = "chat_1000".
Proof. split; vm_compute; reflexivity. Qed.

(** ** Rules of the Hoare logic *)

Section HoareRules.

Context {A B : Type}.
Implicit Types (P R E : App -> Prop) (I : App -> Prop).

Lemma hoare_conseq P P' (m : M A) (Q Q' : A -> App -> Prop) E E' :
  hoare P' m Q' E' ->
  (forall s, P s -> P' s) ->
  (forall a s, Q' a s -> Q a s) ->
  (forall s, E' s -> E s) ->
  hoare P m Q E.
Proof.
  intros Hm HP HQ HE s Hs. specialize (Hm s (HP s Hs)).
  destruct (m s); auto.
Qed.

Lemma hoare_ret P (a : A) (Q : A -> App -> Prop) E :
  (forall s, P s -> Q a s) -> hoare P (ret a) Q E.
Proof. intros H s Hs. simpl. auto. Qed.

Lemma hoare_raise P (e : exn) (Q : A -> App -> Prop) E :
  (forall s, P s -> E s) -> hoare P (raise e) Q E.
Proof. intros H s Hs. simpl. auto. Qed.

Lemma hoare_gets P (f : App -> A) (Q : A -> App -> Prop) E :
  (forall s, P s -> Q (f s) s) -> hoare P (gets f) Q E.
Proof. intros H s Hs. simpl. auto. Qed.

Lemma hoare_bind P (m : M A) (k : A -> M B) (R : A -> App -> Prop)
    (Q : B -> App -> Prop) E :
  hoare P m R E ->
  (forall a, hoare (R a) (k a) Q E) ->
  hoare P (bind m k) Q E.
Proof.
  intros Hm Hk s Hs. unfold bind. specialize (Hm s Hs).
  destruct (m s) as [a s'|e s']; [|exact Hm].
  exact (Hk a s' Hm).
Qed.

Lemma hoare_try_except P (m : M A) (h : exn -> M A)
    (Q : A -> App -> Prop) E' E :
  hoare P m Q E' ->
  (forall e, hoare E' (h e) Q E) ->
  hoare P (try_except m h) Q E.
Proof.
  intros Hm Hh s Hs. unfold try_except. specialize (Hm s Hs).
  destruct (m s) as [a s'|e s']; [exact Hm|].
  exact (Hh e s' Hm).
Qed.

Lemma stable_ret I (a : A) : stable I (ret a).
Proof. apply hoare_ret. auto. Qed.

Lemma stable_raise I (e : exn) : stable I (raise e : M A).
Proof. apply hoare_raise. auto. Qed.

Lemma stable_gets I (f : App -> A) : stable I (gets f).
Proof. apply hoare_gets. auto. Qed.

Lemma stable_bind I (m : M A) (k : A -> M B) :
  stable I m -> (forall a, stable I (k a)) -> stable I (bind m k).
Proof. intros Hm Hk. eapply hoare_bind; [exact Hm|exact Hk]. Qed.

Lemma stable_try_except I (m : M A) (h : exn -> M A) :
  stable I m -> (forall e, stable I (h e)) -> stable I (try_except m h).
Proof. intros Hm Hh. eapply hoare_try_except; [exact Hm|exact Hh]. Qed.

Lemma stable_try_finally I (m : M A) (f : M unit) :
  stable I m -> stable I f -> stable I (try_finally m f).
Proof.
  intros Hm Hf s Hs. unfold try_finally. specialize (Hm s Hs).
  destruct (m s) as [a s'|e s']; specialize (Hf s' Hm);
    destruct (f s'); exact Hf.
Qed.

End HoareRules.

Lemma hoare_modify P (f : App -> App) (Q : unit -> App -> Prop) E :
  (forall s, P s -> Q tt (f s)) -> hoare P (modify f) Q E.
Proof. intros H s Hs. simpl. auto. Qed.

Lemma stable_modify I (f : App -> App) :
  (forall s, I s -> I (f s)) -> stable I (modify f).
Proof. intros H. apply hoare_modify. exact H. Qed.

(** The bracket [silently]: the body runs with the flag set, and the flag
    is cleared on both exits. *)
Lemma hoare_silently {A} P (m : M A) (Q : A -> App -> Prop) E :
  hoare (fun s => exists s0, P s0 /\ s = set_syncing_ui true s0) m
        (fun a s => Q a (set_syncing_ui false s))
        (fun s => E (set_syncing_ui false s)) ->
  hoare P (silently m) Q E.
Proof.
  intros Hm s Hs. unfold silently, bind, modify, try_finally.
  specialize (Hm (set_syncing_ui true s) (ex_intro _ s (conj Hs eq_refl))).
  destruct (m (set_syncing_ui true s)); exact Hm.
Qed.

Lemma hoare_assume {A} (φ : Prop) P (m : M A) Q E :
  (φ -> hoare P m Q E) -> hoare (fun s => φ /\ P s) m Q E.
Proof. intros H s [Hφ Hs]. exact (H Hφ s Hs). Qed.

Lemma hoare_trivial {A} P (m : M A) :
  hoare P m (fun _ _ => True) (fun _ => True).
Proof. intros s _. destruct (m s); exact I. Qed.

Lemma stable_state_of {A} I (m : M A) s :
  stable I m -> I s -> I (state_of (m s)).
Proof. intros Hm Hs. specialize (Hm s Hs). destruct (m s); exact Hm. Qed.

(** One step of a stability proof: split the handler along its syntax and
    leave the invariant of each state update to [auto]. *)
Ltac stable_step :=
  cbv beta zeta;
  lazymatch goal with
  | |- stable _ (bind _ _) => apply stable_bind; [|intros ?]
  | |- stable _ (ret _) => apply stable_ret
  | |- stable _ (gets _) => apply stable_gets
  | |- stable _ (raise _) => apply stable_raise
  | |- stable _ (modify _) =>
      apply stable_modify; intros ? ?; simpl in *; auto
  | |- stable _ (try_except _ _) => apply stable_try_except; [|intros ?]
  | |- stable _ (try_finally _ _) => apply stable_try_finally
  | |- stable _ (if ?b then _ else _) => destruct b
  | |- stable _ (match ?x with _ => _ end) => destruct x
  end.

Create HintDb stable.

(** Read a triple whose three assertions coincide as a stability goal. *)
Ltac as_stable :=
  cbv beta;
  lazymatch goal with
  | |- hoare ?P ?m _ _ => change (stable P m)
  end.

(** Unfold the handlers down to the monad; the loops ([load_lines],
    [mount_existing]) and the bracket [silently] stay folded. *)
Ltac unfold_handlers :=
  unfold handle, run_action, action_send, model_response,
    model_response_dispatch, model_response_deliver, on_button_pressed,
    on_tree_node_selected, action_rename_tab, action_close_tab,
    _permanently_delete_chat, _close_tab_only, action_new_tab,
    _remove_tree_node, _select_tree_node, _add_tree_node_for_session,
    _create_tab_for_session, load_history, _system_bubble,
    add_message, _current_view, _active_session_id, widget_remove,
    select_node, remove_pane, add_pane, get_pane, set_pane_title, set_label,
    ta_clear.

Ltac stable_auto :=
  repeat (first [ solve [auto with stable] | stable_step ]).

(** ** Handlers that leave the tab strip alone

    Any property of the list of panes is kept by the handlers that only
    touch views, the tree, the flag or the files. *)


Section PanesFrame.

Context (w : World) (Φ : list pane -> Prop).

Lemma panes_select_node n : stable (on_panes Φ) (select_node w n).
Proof. unfold select_node. stable_auto. Qed.

Lemma panes_add_message role content sid :
  stable (on_panes Φ) (add_message w role content sid).
Proof.
  unfold add_message, _current_view, _active_session_id, get_pane.
  stable_auto.
Qed.

Lemma panes_system_bubble sid text :
  stable (on_panes Φ) (_system_bubble w sid text).
Proof.
  unfold _system_bubble. pose proof panes_add_message. stable_auto.
Qed.

Lemma panes_load_lines sid lines :
  stable (on_panes Φ) (load_lines w sid lines).
Proof.
  pose proof panes_add_message.
  induction lines as [|[| | |] lines IH]; simpl; stable_auto.
Qed.

Lemma panes_load_history sid : stable (on_panes Φ) (load_history w sid).
Proof.
  pose proof panes_load_lines. pose proof panes_system_bubble.
  unfold load_history. stable_auto.
Qed.

Lemma panes_add_tree_node sid label :
  stable (on_panes Φ) (_add_tree_node_for_session sid label).
Proof. unfold _add_tree_node_for_session. stable_auto. Qed.

Lemma panes_select_tree_node sid :
  stable (on_panes Φ) (_select_tree_node w sid).
Proof.
  pose proof panes_select_node.
  unfold _select_tree_node. stable_auto.
Qed.

Lemma panes_silently {A} (m : M A) :
  stable (on_panes Φ) m -> stable (on_panes Φ) (silently m).
Proof. intros Hm. unfold silently. stable_auto. Qed.

Lemma panes_remove_tree_node sid :
  stable (on_panes Φ) (_remove_tree_node w sid).
Proof.
  pose proof panes_select_node.
  unfold _remove_tree_node, silently. stable_auto.
Qed.

(** The part of [_permanently_delete_chat] that removes the log file. *)
Lemma panes_after_close_tab sid :
  stable (on_panes Φ)
    (try_except
       (ex <- gets (fun s => bool_decide (is_Some (files s !! session_file sid))) ;;
        if ex then
          match os_remove w (session_file sid) with
          | Some e => raise e
          | None => modify (set_files (delete (session_file sid)))
          end
        else ret tt)
       (fun _ =>
          a <- _active_session_id ;;
          if truthy a then
            _system_bubble w a
              ("_Warning: couldn't delete **" +:+ basename (session_file sid) +:+ "**_")
          else ret tt) ;;
     _remove_tree_node w sid).
Proof.
  pose proof panes_system_bubble. pose proof panes_remove_tree_node.
  unfold _active_session_id. stable_auto.
Qed.

End PanesFrame.

(** ** At least one session stays open *)


Lemma length_remove_first sid ps :
  length ps - 1 <= length (remove_first sid ps).
Proof.
  induction ps as [|p ps IH]; simpl; [lia|].
  destruct (String.eqb (p_id p) sid); simpl; lia.
Qed.

Section HasSession.

Context (w : World).

Lemma has_session_select_node n : stable has_session (select_node w n).
Proof. apply panes_select_node. Qed.

Lemma has_session_add_message role content sid :
  stable has_session (add_message w role content sid).
Proof. apply panes_add_message. Qed.

Lemma has_session_system_bubble sid text :
  stable has_session (_system_bubble w sid text).
Proof. apply panes_system_bubble. Qed.

Lemma has_session_load_lines sid lines :
  stable has_session (load_lines w sid lines).
Proof. apply panes_load_lines. Qed.

Lemma has_session_add_tree_node sid label :
  stable has_session (_add_tree_node_for_session sid label).
Proof. apply panes_add_tree_node. Qed.

Lemma has_session_select_tree_node sid :
  stable has_session (_select_tree_node w sid).
Proof. apply panes_select_tree_node. Qed.

Lemma has_session_remove_tree_node sid :
  stable has_session (_remove_tree_node w sid).
Proof. apply panes_remove_tree_node. Qed.

Lemma has_session_silently {A} (m : M A) :
  stable has_session m -> stable has_session (silently m).
Proof. apply panes_silently. Qed.

Lemma has_session_add_pane p : stable has_session (add_pane p).
Proof.
  apply stable_modify. intros s _. unfold has_session, on_panes. simpl.
  rewrite length_app. simpl. lia.
Qed.

Lemma has_session_create_tab sid switch load_hist welcome title :
  stable has_session (_create_tab_for_session w sid switch load_hist welcome title).
Proof.
  pose proof has_session_add_pane. pose proof has_session_load_lines.
  pose proof has_session_system_bubble.
  unfold _create_tab_for_session, load_history. stable_auto.
Qed.

Lemma has_session_new_tab : stable has_session (action_new_tab w).
Proof.
  pose proof has_session_create_tab. pose proof has_session_add_tree_node.
  pose proof has_session_select_tree_node.
  pose proof (@has_session_silently unit).
  unfold action_new_tab, touch. stable_auto.
Qed.

(** The guard of [_close_tab_only]: a pane is removed only when at least
    two are open. *)
Lemma has_session_close_tab_only sid :
  stable has_session (_close_tab_only w sid).
Proof.
  pose proof has_session_system_bubble.
  pose proof has_session_select_tree_node.
  pose proof (@has_session_silently unit).
  unfold _close_tab_only.
  eapply hoare_bind with (R := fun ps s => panes s = ps /\ has_session s).
  { apply hoare_gets. auto. }
  intros ps. destruct (length ps <=? 1)%nat eqn:Hlen.
  { eapply hoare_conseq with (P' := has_session);
      [apply has_session_system_bubble| | |]; simpl; intuition. }
  apply Nat.leb_gt in Hlen. cbv zeta.
  eapply hoare_bind with (R := fun _ => has_session).
  { apply hoare_modify. intros s [Hps _]. unfold has_session, on_panes. simpl.
    rewrite Hps. pose proof (length_remove_first sid ps). lia. }
  intros _. as_stable.
  stable_auto.
Qed.

Lemma has_session_permanently_delete_chat sid :
  stable has_session (_permanently_delete_chat w sid).
Proof.
  pose proof has_session_create_tab. pose proof has_session_add_tree_node.
  pose proof has_session_select_tree_node.
  pose proof (@has_session_silently unit).
  pose proof has_session_close_tab_only.
  pose proof has_session_system_bubble.
  pose proof has_session_remove_tree_node.
  unfold _permanently_delete_chat, touch, _active_session_id. stable_auto.
Qed.

(** Creating a tab opens a session, whatever was open before. *)
Lemma create_tab_opens sid switch load_hist welcome title :
  hoare (fun _ => True)
    (_create_tab_for_session w sid switch load_hist welcome title)
    (fun _ => has_session) has_session.
Proof.
  pose proof has_session_load_lines. pose proof has_session_system_bubble.
  unfold _create_tab_for_session.
  eapply hoare_bind with (R := fun _ => has_session).
  { apply hoare_modify. intros s _. unfold has_session, on_panes. simpl.
    rewrite length_app. simpl. lia. }
  intros _. as_stable. unfold load_history. stable_auto.
Qed.

Lemma mount_existing_opens sid rest :
  hoare (fun _ => True) (mount_existing w (sid :: rest))
    (fun _ => has_session) has_session.
Proof.
  pose proof has_session_create_tab. pose proof has_session_add_tree_node.
  simpl. eapply hoare_bind; [apply create_tab_opens|].
  intros ?. as_stable. apply stable_bind; [auto|]. intros ?.
  induction rest as [|sid' rest IH]; simpl; stable_auto.
Qed.

Lemma on_mount_opens :
  hoare (fun _ => True) (on_mount w) (fun _ => has_session) (fun _ => True).
Proof.
  pose proof has_session_add_tree_node.
  pose proof has_session_select_tree_node.
  unfold on_mount.
  eapply hoare_bind with (R := fun _ _ => True); [apply hoare_modify; auto|].
  intros ?.
  eapply hoare_bind with (R := fun _ _ => True); [apply hoare_modify; auto|].
  intros ?.
  eapply hoare_bind with (R := fun _ _ => True); [apply hoare_gets; auto|].
  intros existing. apply hoare_silently.
  eapply hoare_conseq with (P' := fun _ => True) (Q' := fun _ => has_session)
                           (E' := fun _ => True); [|auto|auto|auto].
  destruct existing as [|sid rest].
  - simpl. unfold touch.
    eapply hoare_bind with (R := fun _ _ => True); [apply hoare_gets; auto|].
    intros sid.
    eapply hoare_bind with (R := fun _ _ => True); [apply hoare_modify; auto|].
    intros ?. eapply hoare_bind with (R := fun _ => has_session).
    { eapply hoare_conseq; [apply create_tab_opens| | |]; simpl; auto. }
    intros ?.
    eapply hoare_conseq with (P' := has_session) (E' := has_session);
      [|auto|intros ? ? Hq; exact Hq|auto].
    as_stable. stable_auto.
  - destruct (last (sid :: rest)) as [l|] eqn:Hl.
    2:{ apply last_None in Hl. discriminate. }
    eapply hoare_bind with (R := fun _ => has_session).
    { eapply hoare_conseq; [apply mount_existing_opens| | |]; simpl; auto. }
    intros ?.
    eapply hoare_conseq with (P' := has_session) (E' := has_session);
      [|auto|intros ? ? Hq; exact Hq|auto].
    as_stable. stable_auto.
Qed.

(** Closing is refused while a single tab is open. *)
Lemma close_tab_only_refuses sid s :
  length (panes s) <= 1 ->
  panes (state_of (_close_tab_only w sid s)) = panes s.
Proof.
  intros Hlen.
  pose proof (panes_system_bubble w (fun ps => ps = panes s) sid
    "_Can't close the last chat. Create a new one first (Ctrl+N)._") as Hb.
  unfold _close_tab_only, bind at 1, gets at 1.
  apply Nat.leb_le in Hlen. rewrite Hlen.
  apply (stable_state_of _ _ s Hb). reflexivity.
Qed.

(** Deleting the only open session: the replacement is created first, and
    it is what remains. *)
Lemma delete_only_session p s :
  panes s = [p] ->
  let new := next_session_id (files s) in
  hoare (fun s' => s' = s) (_permanently_delete_chat w (p_id p))
    (fun _ => on_panes (fun ps => ps = [Pane new new]))
    (on_panes (fun ps => ps = [p; Pane new new] \/ ps = [Pane new new])).
Proof.
  intros Hp new. set (N := Pane new new).
  pose proof (panes_select_tree_node w) as Hsel.
  pose proof (panes_system_bubble w) as Hbub.
  pose proof (panes_load_lines w) as Hll.
  pose proof panes_add_tree_node as Hadd.
  pose proof (fun Φ => @panes_silently Φ unit) as Hsil.
  unfold _permanently_delete_chat.
  eapply hoare_bind with
    (R := fun ps s' => ps = [p] /\ (panes s' = [p] /\ files s' = files s)).
  { apply hoare_gets. intros ? ->. auto. }
  intros ps. apply hoare_assume. intros ->. simpl.
  eapply hoare_bind with (R := fun _ => on_panes (fun ps => ps = [p; N])).
  { eapply hoare_bind with
      (R := fun n s' => n = new /\ panes s' = [p]).
    { apply hoare_gets. intros s' [Hps Hf]. unfold new. rewrite Hf. auto. }
    intros n. apply hoare_assume. intros ->. unfold touch.
    eapply hoare_bind with (R := fun _ => on_panes (fun ps => ps = [p]));
      [apply hoare_modify; auto|]. intros ?.
    eapply hoare_conseq with (P' := on_panes (fun ps => ps = [p]))
      (Q' := fun _ => on_panes (fun ps => ps = [p; N]))
      (E' := on_panes (fun ps => ps = [p; N])); [|auto|auto|unfold on_panes; auto].
    eapply hoare_bind with (R := fun _ => on_panes (fun ps => ps = [p; N])).
    { unfold _create_tab_for_session, add_pane, or_else. simpl.
      eapply hoare_bind with (R := fun _ => on_panes (fun ps => ps = [p; N])).
      { apply hoare_modify. unfold on_panes. simpl. intros ? ->. reflexivity. }
      intros ?. as_stable. stable_auto. }
    intros ?. as_stable. stable_auto. }
  intros ?.
  eapply hoare_bind with (R := fun _ => on_panes (fun ps => ps = [N])).
  { unfold _close_tab_only.
    eapply hoare_bind with
      (R := fun ps s' => ps = [p; N] /\ panes s' = [p; N]).
    { apply hoare_gets. unfold on_panes. auto. }
    intros ps. apply hoare_assume. intros ->. simpl.
    rewrite String.eqb_refl. simpl.
    eapply hoare_bind with (R := fun _ => on_panes (fun ps => ps = [N])).
    { apply hoare_modify. unfold on_panes. simpl. intros ? ->. simpl.
      rewrite String.eqb_refl. reflexivity. }
    intros ?.
    eapply hoare_conseq with (P' := on_panes (fun ps => ps = [N]))
      (Q' := fun _ => on_panes (fun ps => ps = [N]))
      (E' := on_panes (fun ps => ps = [N])); [|auto|auto|unfold on_panes; auto].
    as_stable. stable_auto. }
  intros ?.
  eapply hoare_conseq with (P' := on_panes (fun ps => ps = [N]))
    (Q' := fun _ => on_panes (fun ps => ps = [N]))
    (E' := on_panes (fun ps => ps = [N])); [|auto|auto|unfold on_panes; auto].
  apply panes_after_close_tab.
Qed.

End HasSession.


Lemma has_session_perform_all w ops s :
  has_session s -> has_session (perform_all w ops s).
Proof.
  revert s. induction ops as [|op ops IH]; intros s Hs; simpl; [exact Hs|].
  apply IH. apply stable_state_of; [|exact Hs].
  destruct op; simpl.
  - apply has_session_new_tab.
  - apply has_session_close_tab_only.
  - apply has_session_permanently_delete_chat.
Qed.

(** C1. However the user interleaves new-session, close-tab and
    delete-session operations after start-up, at least one tab pane is open
    after each of them: [_close_tab_only] leaves the tab strip as it is
    while a single tab is open, and [_permanently_delete_chat] on the only
    open session adds the replacement tab before it removes the old one, so
    that the replacement is what remains. *)
Theorem C1_at_least_one_session (w : World) :
  (forall fs s0 ops,
     on_mount w (fresh_app fs) = Ok tt s0 ->
     1 <= length (panes (perform_all w ops s0)))
  /\ (forall sid s,
        length (panes s) <= 1 ->
        panes (state_of (_close_tab_only w sid s)) = panes s)
  /\ (forall p s,
        panes s = [p] ->
        let new := Pane (next_session_id (files s)) (next_session_id (files s)) in
        match _permanently_delete_chat w (p_id p) s with
        | Ok _ s' => panes s' = [new]
        | Raise _ s' => panes s' = [p; new] \/ panes s' = [new]
        end).
Proof.
  split; [|split].
  - intros fs s0 ops Hm. apply (has_session_perform_all w ops s0).
    pose proof (on_mount_opens w (fresh_app fs) I) as H.
    rewrite Hm in H. exact H.
  - intros sid s. apply close_tab_only_refuses.
  - intros p s Hp. exact (delete_only_session w p s Hp s eq_refl).
Qed.

Lemma C1_witness :
  1 <= length (panes (perform_all quiet_world
         [deleteSession "chat_001"; closeTab "chat_002"; newSession;
          deleteSession "chat_003"; closeTab "chat_002"]
         (state_of (on_mount quiet_world (fresh_app ∅))))).
Proof.
  apply (proj1 (C1_at_least_one_session quiet_world) ∅).
  vm_compute. reflexivity.
Defined.

(** ** The selection synchronizer *)


Section IdleStable.

Context (w : World).







End IdleStable.



(** ** What the primitives compute *)

Lemma bind_gets {A B} (f : App -> A) (k : A -> M B) s :
  bind (gets f) k s = k (f s) s.
Proof. reflexivity. Qed.

Lemma bind_modify {B} (f : App -> App) (k : unit -> M B) s :
  bind (modify f) k s = k tt (f s).
Proof. reflexivity. Qed.

Lemma bind_ok {A B} (m : M A) (k : A -> M B) s a s' :
  m s = Ok a s' -> bind m k s = k a s'.
Proof. intros H. unfold bind. rewrite H. reflexivity. Qed.

Lemma bind_raise {A B} (m : M A) (k : A -> M B) s e s' :
  m s = Raise e s' -> bind m k s = Raise e s'.
Proof. intros H. unfold bind. rewrite H. reflexivity. Qed.

(** [_current_view] registers a view for the session when none is. *)
Lemma current_view_registers sid s :
  truthy sid = true ->
  _current_view sid s
  = Ok sid (match views s !! sid with
            | Some _ => s
            | None => set_views <[ sid := View (view_attached s sid) [] ]> s
            end).
Proof.
  intros Hsid. unfold _current_view, _active_session_id.
  rewrite bind_gets. cbv zeta. rewrite Hsid. rewrite bind_gets.
  unfold view_attached.
  destruct (views s !! sid) as [v|] eqn:Hv; [reflexivity|].
  unfold get_pane. rewrite bind_gets, bind_modify. reflexivity.
Qed.

(** [add_message] in a state where the bubble can be mounted. *)
Lemma add_message_mounts w role content sid s :
  truthy sid = true ->
  view_attached s sid = true \/ mount_detached w = None ->
  add_message w role content sid s
  = Ok (next_widget s) (mount_bubble sid role content s).
Proof.
  intros Hsid Hatt. unfold add_message.
  rewrite (bind_ok _ _ _ _ _ (current_view_registers sid s Hsid)).
  rewrite !bind_gets, bind_modify.
  unfold mount_bubble, bubbles_of. unfold view_attached in *.
  destruct (views s !! sid) as [v|] eqn:Hv.
  - rewrite Hv. simpl.
    destruct (v_attached v) eqn:Ha; [reflexivity|].
    destruct Hatt as [?|Hm]; [discriminate|]. rewrite Hm. reflexivity.
  - simpl. rewrite lookup_insert_eq. simpl.
    set (b := bool_decide _) in *.
    assert (Hgo : (if b then ret tt
                   else match mount_detached w with
                        | Some e => raise e
                        | None => ret tt
                        end) = ret tt).
    { destruct b; [reflexivity|].
      destruct Hatt as [?|Hm]; [discriminate|]. rewrite Hm. reflexivity. }
    rewrite Hgo. unfold bind, ret, modify, set_views, set_next_widget. simpl.
    rewrite insert_insert_eq. reflexivity.
Qed.

(** [add_message] for a session without a view or a pane, when the
    toolkit refuses to mount into a detached view. *)
Lemma add_message_detached_raises w role content sid s e :
  truthy sid = true ->
  view_attached s sid = false ->
  mount_detached w = Some e ->
  add_message w role content sid s
  = Raise e (set_next_widget (S (next_widget s))
              (match views s !! sid with
               | Some _ => s
               | None => set_views <[ sid := View false [] ]> s
               end)).
Proof.
  intros Hsid Hatt Hm. unfold add_message.
  rewrite (bind_ok _ _ _ _ _ (current_view_registers sid s Hsid)).
  rewrite !bind_gets, bind_modify. rewrite Hatt.
  unfold view_attached in Hatt.
  destruct (views s !! sid) as [v|] eqn:Hv.
  - rewrite Hv. simpl. rewrite Hatt, Hm. reflexivity.
  - simpl. rewrite lookup_insert_eq. simpl. rewrite Hm. reflexivity.
Qed.

Lemma view_attached_mount_bubble sid role content s :
  view_attached (mount_bubble sid role content s) sid = view_attached s sid.
Proof.
  unfold view_attached at 1, mount_bubble. simpl.
  rewrite lookup_insert_eq. reflexivity.
Qed.

Lemma bubbles_of_mount_bubble sid role content s :
  bubbles_of (mount_bubble sid role content s) sid
  = bubbles_of s sid ++ [Bubble (next_widget s) role content].
Proof.
  unfold bubbles_of at 1, mount_bubble. simpl.
  rewrite lookup_insert_eq. reflexivity.
Qed.

Lemma view_attached_without_widget md s sid :
  view_attached (without_widget md s) sid = view_attached s sid.
Proof.
  unfold view_attached, without_widget. simpl. rewrite lookup_fmap.
  destruct (views s !! sid); reflexivity.
Qed.


(** The send path for an ordinary prompt, up to the dispatch. *)
Lemma dispatch_prompt w s :
  truthy (active s) = true ->
  truthy (PyStr.strip (ta_text s)) = true ->
  intercepted (PyStr.strip (ta_text s)) = false ->
  view_attached s (active s) = true \/ mount_detached w = None ->
  model_response_dispatch w s
  = Ok (Some (Request (active s) (S (next_widget s)) (PyStr.strip (ta_text s))))
       (mount_bubble (active s) "status" "_Thinking…_"
          (set_ta_text ""
             (append_log (active s)
                (Rec (Some "user") (Some (PyStr.strip (ta_text s))))
                (mount_bubble (active s) "user" (PyStr.strip (ta_text s)) s)))).
Proof.
  intros Hsid Hp Hi Hatt. unfold intercepted in Hi.
  apply orb_false_elim in Hi as [Hi Hdelete].
  apply orb_false_elim in Hi as [Hi Hclose].
  apply orb_false_elim in Hi as [Hrename Hnew].
  unfold model_response_dispatch, _active_session_id.
  rewrite bind_gets, Hsid. cbn [negb].
  rewrite bind_gets, Hp. cbn [negb].
  rewrite Hrename, Hnew, Hclose, Hdelete.
  rewrite (bind_ok _ _ _ _ _
             (add_message_mounts w "user" _ (active s) s Hsid Hatt)).
  unfold save_message, ta_clear. rewrite !bind_modify.
  erewrite bind_ok; [reflexivity|].
  apply add_message_mounts; [exact Hsid|].
  destruct Hatt as [Hatt|Hm]; [left|right; exact Hm].
  unfold view_attached, mount_bubble. simpl. rewrite lookup_insert_eq.
  exact Hatt.
Qed.

(** The send path after the [await], when the bubble can be mounted. *)
Lemma deliver_mounts w r response s :
  truthy (r_sid r) = true ->
  view_attached s (r_sid r) = true \/ mount_detached w = None ->
  model_response_deliver w r response s
  = Ok tt (append_log (r_sid r)
             (Rec (Some "assistant") (Some (output_of response)))
             (mount_bubble (r_sid r) "assistant" (output_of response)
                (without_widget (r_typing_md r) s))).
Proof.
  intros Hsid Hatt. unfold model_response_deliver, widget_remove.
  rewrite bind_modify. fold (without_widget (r_typing_md r) s).
  fold (output_of response).
  erewrite bind_ok; [reflexivity|].
  apply add_message_mounts; [exact Hsid|].
  rewrite view_attached_without_widget. exact Hatt.
Qed.

(** ** The send path *)

(** A handler that ends in [return] without a request dispatches
    nothing, whatever it did before. *)
Lemma hoare_bind_any {A B} (m : M A) (k : A -> M B) (Q : B -> App -> Prop) :
  (forall a, hoare (fun _ => True) (k a) Q (fun _ => True)) ->
  hoare (fun _ => True) (bind m k) Q (fun _ => True).
Proof.
  intros Hk. eapply hoare_bind with (R := fun _ _ => True); [|exact Hk].
  apply hoare_trivial.
Qed.

Ltac dispatches_nothing s :=
  refine ((_ : hoare (fun _ => True) _
                 (fun r _ => r = @None request) (fun _ => True)) s I);
  repeat (apply hoare_bind_any; intros ?);
  apply hoare_ret; reflexivity.

(** C9, as amended.  The send path compares the input after white space
    was stripped from both ends.  A stripped input that is [/new],
    [/close] or [/delete], or that begins with the eight characters
    [/rename] and blank, is intercepted: nothing is dispatched.  Every
    other non-empty stripped input, among them a bare [/rename] and
    [/delete x], is an ordinary prompt: it is shown as a user bubble,
    appended to the log as a user record, and sent to the completion
    service, whose answer is then delivered. *)
Theorem C9_interception_after_strip (w : World) (s : App) :
  let sid := active s in
  let p := PyStr.strip (ta_text s) in
  truthy sid = true ->
  truthy p = true ->
  (intercepted p = true ->
     match model_response_dispatch w s with
     | Ok r _ => r = None
     | Raise _ _ => True
     end)
  /\ (intercepted p = false ->
      view_attached s sid = true \/ mount_detached w = None ->
      exists md s',
        model_response_dispatch w s = Ok (Some (Request sid md p)) s'
        /\ Bubble (next_widget s) "user" p ∈ bubbles_of s' sid
        /\ files s' !! session_file sid
           = Some (default [] (files s !! session_file sid)
                   ++ [Rec (Some "user") (Some p)])
        /\ model_response w s
           = model_response_deliver w (Request sid md p) (responses_create w p) s')
  /\ intercepted "/rename" = false
  /\ intercepted "/delete x" = false
  /\ String.length "/rename " = 8.
Proof.
  intros sid p Hsid Hp. split; [|split; [|repeat split]].
  - intros Hi. unfold model_response_dispatch, _active_session_id.
    rewrite bind_gets. fold sid. rewrite Hsid. cbn [negb].
    rewrite bind_gets. fold p. rewrite Hp. cbn [negb].
    destruct (PyStr.startswith p "/rename ") eqn:Hrename;
      [dispatches_nothing s|].
    destruct (String.eqb p "/new") eqn:Hnew; [dispatches_nothing s|].
    destruct (String.eqb p "/close") eqn:Hclose; [dispatches_nothing s|].
    destruct (String.eqb p "/delete") eqn:Hdelete; [dispatches_nothing s|].
    unfold intercepted in Hi.
    rewrite Hrename, Hnew, Hclose, Hdelete in Hi. discriminate.
  - intros Hi Hatt.
    pose proof (dispatch_prompt w s Hsid Hp Hi Hatt) as Hd.
    fold sid p in Hd. eexists _, _. split; [exact Hd|]. split; [|split].
    + rewrite bubbles_of_mount_bubble. apply elem_of_app. left.
      unfold bubbles_of. simpl. rewrite lookup_insert_eq. simpl.
      apply elem_of_app. right. apply list_elem_of_singleton. reflexivity.
    + simpl. rewrite lookup_insert_eq. reflexivity.
    + unfold model_response. rewrite (bind_ok _ _ _ _ _ Hd). reflexivity.
Qed.

Lemma C9_witness :
  let s := set_ta_text " /delete x " one_session in
  exists md s',
    model_response_dispatch quiet_world s
    = Ok (Some (Request "chat_001" md "/delete x")) s'
    /\ Bubble (next_widget s) "user" "/delete x" ∈ bubbles_of s' "chat_001"
    /\ files s' !! session_file "chat_001"
       = Some (default [] (files s !! session_file "chat_001")
               ++ [Rec (Some "user") (Some "/delete x")])
    /\ model_response quiet_world s
       = model_response_deliver quiet_world (Request "chat_001" md "/delete x")
           (responses_create quiet_world "/delete x") s'.
Proof.
  intros s.
  refine (proj1 (proj2 (C9_interception_after_strip quiet_world s _ _)) _ _).
  - vm_compute. reflexivity.
  - vm_compute. reflexivity.
  - vm_compute. reflexivity.
  - left. vm_compute. reflexivity.
Defined.

(** The input ["/new "], with a blank after the word, is none of the
    four command forms, yet the send path intercepts it: a second tab is
    opened, nothing is dispatched and no user record is written. *)
Lemma C9_counterexample :
  let s := set_ta_text "/new " one_session in
  intercepted (ta_text s) = false
  /\ exists s',
       model_response_dispatch quiet_world s = Ok None s'
       /\ p_id <$> panes s' = ["chat_001"; "chat_002"]
       /\ files s' !! "chat_001.jsonl" = Some []
       /\ files s' !! "chat_002.jsonl" = Some [].
Proof.
  split; [reflexivity|].
  eexists. split; [vm_compute; reflexivity|].
  repeat split; vm_compute; reflexivity.
Qed.

(** *** The placeholder is never logged *)








(** *** A result delivered after its session was closed *)

(** C7, as amended.  When a completion request completes for a session
    that has neither a view nor a pane any more, the result is not
    discarded.  [_current_view] registers a new view for the session id,
    attached to no pane.  If the toolkit accepts a bubble in a detached
    view, the assistant turn is put into that view and appended to the
    session's log, which is created again if it was deleted; if the
    toolkit refuses, the handler raises, with the empty view registered
    and the files as they were.  The tab strip is unchanged either way. *)
Theorem C7_late_delivery (w : World) (r : request) (response : string + exn)
    (s : App) :
  let sid := r_sid r in
  truthy sid = true ->
  views s !! sid = None ->
  List.find (fun p => String.eqb (p_id p) sid) (panes s) = None ->
  match mount_detached w with
  | None =>
      exists s',
        model_response_deliver w r response s = Ok tt s'
        /\ views s' !! sid
           = Some (View false
                     [Bubble (next_widget s) "assistant" (output_of response)])
        /\ files s' !! session_file sid
           = Some (default [] (files s !! session_file sid)
                   ++ [Rec (Some "assistant") (Some (output_of response))])
        /\ panes s' = panes s
  | Some e =>
      exists s',
        model_response_deliver w r response s = Raise e s'
        /\ views s' !! sid = Some (View false [])
        /\ files s' = files s
        /\ panes s' = panes s
  end.
Proof.
  intros sid Hsid Hv Hp. subst sid.
  assert (Hv1 : views (without_widget (r_typing_md r) s) !! r_sid r = None).
  { unfold without_widget. simpl. rewrite lookup_fmap, Hv. reflexivity. }
  assert (Hatt : view_attached (without_widget (r_typing_md r) s) (r_sid r)
                 = false).
  { unfold view_attached. rewrite Hv1. simpl. rewrite Hp. reflexivity. }
  destruct (mount_detached w) as [e|] eqn:Hm.
  - eexists. split.
    + unfold model_response_deliver, widget_remove. rewrite bind_modify.
      fold (without_widget (r_typing_md r) s).
      erewrite bind_raise; [reflexivity|].
      apply add_message_detached_raises; assumption.
    + rewrite Hv1. simpl. rewrite lookup_insert_eq. auto.
  - eexists. split.
    + apply deliver_mounts; [exact Hsid|right; exact Hm].
    + simpl. rewrite !lookup_insert_eq.
      unfold bubbles_of. rewrite Hatt, Hv1. auto.
Qed.

Lemma C7_witness :
  exists s',
    model_response_deliver quiet_world (Request "chat_002" 5 "hi")
      (inl "hello") closed_while_waiting = Ok tt s'
    /\ views s' !! "chat_002"
       = Some (View false
                 [Bubble (next_widget closed_while_waiting) "assistant" "hello"])
    /\ files s' !! session_file "chat_002"
       = Some (default [] (files closed_while_waiting !! session_file "chat_002")
               ++ [Rec (Some "assistant") (Some "hello")])
    /\ panes s' = panes closed_while_waiting.
Proof.
  refine (C7_late_delivery quiet_world (Request "chat_002" 5 "hi")
            (inl "hello") closed_while_waiting _ _ _).
  all: vm_compute; reflexivity.
Defined.

(** The user sends "hi" from [chat_002] and closes that chat while the
    request is in flight: its view, its pane and its log are gone.  When
    the answer arrives, a view is registered for [chat_002] again and the
    log file is created again with the answer; with a toolkit that refuses
    detached mounts the handler raises instead, the view registered all
    the same. *)
Lemma C7_counterexample :
  model_response_dispatch quiet_world (set_ta_text "hi" two_sessions)
  = Ok (Some (Request "chat_002" 5 "hi"))
       (state_of (model_response_dispatch quiet_world
                    (set_ta_text "hi" two_sessions)))
  /\ views closed_while_waiting !! "chat_002" = None
  /\ files closed_while_waiting !! "chat_002.jsonl" = None
  /\ (p_id <$> panes closed_while_waiting) = ["chat_001"]
  /\ (exists s',
        model_response_deliver quiet_world (Request "chat_002" 5 "hi")
          (inl "hello") closed_while_waiting = Ok tt s'
        /\ views s' !! "chat_002"
           = Some (View false [Bubble 6 "assistant" "hello"])
        /\ files s' !! "chat_002.jsonl"
           = Some [Rec (Some "assistant") (Some "hello")])
  /\ (exists e s',
        model_response_deliver failing_world (Request "chat_002" 5 "hi")
          (inl "hello") closed_while_waiting = Raise e s'
        /\ views s' !! "chat_002" = Some (View false [])).
Proof.
  split; [vm_compute; reflexivity|].
  split; [vm_compute; reflexivity|].
  split; [vm_compute; reflexivity|].
  split; [vm_compute; reflexivity|].
  split.
  - eexists. split; [vm_compute; reflexivity|].
    split; vm_compute; reflexivity.
  - eexists _, _. split; [vm_compute; reflexivity|].
    vm_compute; reflexivity.
Qed.

(** C10. A send with no active session, or with an input field that is
    empty or holds white space only, does nothing: the handler returns in
    the state it was called in (no bubble, no log record, input field
    untouched) and nothing is dispatched. *)
Theorem C10_empty_send_is_noop (w : World) (s : App) :
  active s = "" \/ PyStr.strip (ta_text s) = "" ->
  model_response_dispatch w s = Ok None s
  /\ model_response w s = Ok tt s.
Proof.
  intros H.
  assert (Hd : model_response_dispatch w s = Ok None s).
  { unfold model_response_dispatch, bind at 1, _active_session_id, gets at 1.
    destruct H as [H|H].
    - rewrite H. reflexivity.
    - destruct (negb (truthy (active s))); [reflexivity|].
      unfold bind, gets. rewrite H. reflexivity. }
  split; [exact Hd|].
  unfold model_response, bind. rewrite Hd. reflexivity.
Qed.

Lemma C10_witness :
  model_response_dispatch quiet_world
    (set_ta_text "  	
  " (state_of (on_mount quiet_world (fresh_app ∅))))
  = Ok None (set_ta_text "  	
  " (state_of (on_mount quiet_world (fresh_app ∅))))
  /\ model_response quiet_world
       (set_ta_text "  	
  " (state_of (on_mount quiet_world (fresh_app ∅))))
     = Ok tt (set_ta_text "  	
  " (state_of (on_mount quiet_world (fresh_app ∅)))).
Proof.
  apply C10_empty_send_is_noop. right. vm_compute. reflexivity.
Defined.

(** ** Loading a log *)




Lemma mount_all_files sid turns s : files (mount_all sid turns s) = files s.
Proof.
  revert s. induction turns as [|[role content] turns IH]; intros s; simpl.
  - reflexivity.
  - rewrite IH. reflexivity.
Qed.

(** The loop of [load_history] over a well-formed prefix of the log. *)
Lemma load_lines_prefix w sid pre rest s :
  truthy sid = true ->
  view_attached s sid = true \/ mount_detached w = None ->
  forallb well_formed pre = true ->
  load_lines w sid (pre ++ rest) s
  = load_lines w sid rest (mount_all sid (omap turn_of pre) s).
Proof.
  intros Hsid. revert s.
  induction pre as [|l pre IH]; intros s Hatt Hwf; [reflexivity|].
  simpl in Hwf. apply andb_prop in Hwf as [Hl Hwf].
  destruct l as [|role content| |]; try discriminate; simpl.
  - apply IH; assumption.
  - rewrite (bind_ok _ _ _ _ _
               (add_message_mounts w _ _ sid s Hsid Hatt)).
    apply IH; [|exact Hwf].
    rewrite view_attached_mount_bubble. exact Hatt.
Qed.





(** ** Closing a chat *)

Lemma mount_all_panes sid turns s : panes (mount_all sid turns s) = panes s.
Proof.
  revert s. induction turns as [|[role content] turns IH]; intros s; simpl.
  - reflexivity.
  - rewrite IH. reflexivity.
Qed.

Lemma mount_all_active sid turns s : active (mount_all sid turns s) = active s.
Proof.
  revert s. induction turns as [|[role content] turns IH]; intros s; simpl.
  - reflexivity.
  - rewrite IH. reflexivity.
Qed.

Lemma mount_all_view sid turns s :
  is_Some (views s !! sid) ->
  views (mount_all sid turns s) !! sid
  = Some (View (view_attached s sid)
               (bubbles_of s sid ++ bubbles_from (next_widget s) turns)).
Proof.
  revert s. induction turns as [|[role content] turns IH]; intros s Hs; simpl.
  - unfold view_attached, bubbles_of. destruct Hs as [[att bs] Hv].
    rewrite Hv. simpl. rewrite app_nil_r. reflexivity.
  - rewrite IH.
    + rewrite view_attached_mount_bubble, bubbles_of_mount_bubble.
      simpl. rewrite <- app_assoc. reflexivity.
    + unfold mount_bubble. simpl. rewrite lookup_insert_eq. eauto.
Qed.

(** The tab-only close touches neither the logs nor the tree. *)
Lemma close_tab_only_frame w sid (F : directory) (C : list node)
    (N : gmap string nat) :
  stable (fun s => files s = F /\ tree_children s = C /\ tree_nodes s = N)
    (_close_tab_only w sid).
Proof. unfold_handlers. unfold silently. stable_auto. Qed.

(** The step of [_permanently_delete_chat] that removes the log file. *)
Lemma remove_log_file w path (h : exn -> M unit) :
  hoare (fun _ => True)
    (try_except
       (ex <- gets (fun s => bool_decide (is_Some (files s !! path))) ;;
        if ex then
          match os_remove w path with
          | Some e => raise e
          | None => modify (set_files (delete path))
          end
        else ret tt)
       h)
    (fun _ s => os_remove w path = None -> files s !! path = None)
    (fun _ => True).
Proof.
  intros s _. unfold try_except. rewrite bind_gets.
  destruct (bool_decide (is_Some (files s !! path))) eqn:Hex.
  - destruct (os_remove w path) as [e|] eqn:Hrm.
    + simpl. destruct (h e s); [intros; discriminate|exact I].
    + simpl. intros _. apply lookup_delete_eq.
  - simpl. intros _. apply bool_decide_eq_false in Hex.
    destruct (files s !! path) eqn:Hf; [|reflexivity].
    exfalso. apply Hex. eauto.
Qed.

Lemma remove_tree_node_forgets w sid (P : App -> Prop) :
  (forall f s, P s -> P (set_tree_nodes f s)) ->
  (forall f s, P s -> P (set_tree_children f s)) ->
  (forall c s, P s -> P (set_tree_cursor c s)) ->
  (forall l s, P s -> P (set_last_tree_sid l s)) ->
  (forall b s, P s -> P (set_syncing_ui b s)) ->
  hoare P (_remove_tree_node w sid)
    (fun _ s => P s /\ tree_nodes s !! sid = None) (fun _ => True).
Proof.
  intros H1 H2 H3 H4 H5. unfold _remove_tree_node.
  eapply hoare_bind with (R := fun _ => P); [apply hoare_gets; auto|].
  intros nd.
  eapply hoare_bind with
    (R := fun _ s => P s /\ tree_nodes s !! sid = None).
  { apply hoare_modify. intros s Hs. split; [auto|].
    simpl. apply lookup_delete_eq. }
  intros ?.
  eapply hoare_conseq with
    (P' := fun s => P s /\ tree_nodes s !! sid = None)
    (Q' := fun _ s => P s /\ tree_nodes s !! sid = None)
    (E' := fun s => P s /\ tree_nodes s !! sid = None); [|auto|auto|auto].
  as_stable. unfold silently, select_node.
  repeat (first
    [ stable_step
    | match goal with
      | H : _ /\ _ |- _ => destruct H
      end
    | split; [solve [auto]|solve [auto]] ]).
Qed.

Lemma permanently_delete_removes w sid :
  hoare (fun _ => True) (_permanently_delete_chat w sid)
    (fun _ s =>
       (os_remove w (session_file sid) = None ->
        files s !! session_file sid = None)
       /\ tree_nodes s !! sid = None)
    (fun _ => True).
Proof.
  unfold _permanently_delete_chat.
  apply hoare_bind_any. intros ps.
  apply hoare_bind_any. intros ?.
  apply hoare_bind_any. intros ?.
  eapply hoare_bind; [apply remove_log_file|]. intros ?. cbv beta.
  apply remove_tree_node_forgets; intros; simpl; auto.
Qed.

(** Selecting the tree leaf of a session that has a log but no pane. *)
Lemma reselect_reloads w sid lines s :
  truthy sid = true ->
  PyStr.strip sid = sid ->
  Idle s ->
  active s <> sid ->
  List.find (fun p => String.eqb (p_id p) sid) (panes s) = None ->
  files s !! session_file sid = Some lines ->
  forallb well_formed lines = true ->
  on_tree_node_selected w (NodeSelected false (Some sid)) s
  = Ok tt (mount_all sid (omap turn_of lines)
             (set_views <[ sid := View true [] ]>
                (set_active sid
                   (set_panes (fun ps => ps ++ [Pane sid sid])
                      (set_last_tree_sid (Some sid) s))))).
Proof.
  intros Hsid Hstrip Hidle Hact Hpane Hf Hwf.
  unfold on_tree_node_selected. rewrite bind_gets. rewrite Hidle.
  cbn [node_is_root node_data orb or_else]. rewrite Hsid. cbv zeta.
  rewrite Hstrip, Hsid. cbn [negb].
  rewrite bind_modify, bind_gets. cbn [active set_last_tree_sid].
  apply String.eqb_neq in Hact. rewrite Hact.
  unfold get_pane. rewrite bind_gets. cbn [panes set_last_tree_sid].
  rewrite Hpane.
  unfold _create_tab_for_session, add_pane. rewrite !bind_modify.
  cbn [or_else].
  unfold load_history. rewrite bind_gets.
  cbn [files set_views set_active set_panes set_last_tree_sid].
  rewrite Hf. unfold try_except.
  replace (load_lines w sid lines) with (load_lines w sid (lines ++ []))
    by (rewrite app_nil_r; reflexivity).
  rewrite load_lines_prefix; [reflexivity|exact Hsid| |exact Hwf].
  left. unfold view_attached. simpl. rewrite lookup_insert_eq. reflexivity.
Qed.

(** C2, as amended.  The close-chat operation the user reaches, by the
    close-chat key binding or by typing [/close], is permanent deletion of
    the active chat: when it returns, the session is gone from
    [tree_nodes], and unless [os.remove] failed its log file is gone.
    Only the tab-only close [_close_tab_only] leaves every log file and the
    navigation tree as they are.  A session that has a log and a tree leaf
    but no pane is reopened by selecting its leaf: a tab and an attached
    view are created, the tab becomes active and the records of the log
    are shown in order, the log unchanged. *)
Theorem C2_close_chat_deletes (w : World) :
  (forall s s',
     truthy (active s) = true ->
     action_close_tab w s = Ok tt s' ->
     (os_remove w (session_file (active s)) = None ->
      files s' !! session_file (active s) = None)
     /\ tree_nodes s' !! active s = None)
  /\ (forall s,
        truthy (active s) = true ->
        PyStr.strip (ta_text s) = "/close" ->
        model_response w s = action_close_tab w (set_ta_text "" s))
  /\ (forall sid s,
        files (state_of (_close_tab_only w sid s)) = files s
        /\ tree_children (state_of (_close_tab_only w sid s)) = tree_children s
        /\ tree_nodes (state_of (_close_tab_only w sid s)) = tree_nodes s)
  /\ (forall sid lines s,
        truthy sid = true ->
        PyStr.strip sid = sid ->
        Idle s ->
        active s <> sid ->
        List.find (fun p => String.eqb (p_id p) sid) (panes s) = None ->
        files s !! session_file sid = Some lines ->
        forallb well_formed lines = true ->
        exists s',
          on_tree_node_selected w (NodeSelected false (Some sid)) s = Ok tt s'
          /\ panes s' = panes s ++ [Pane sid sid]
          /\ active s' = sid
          /\ views s' !! sid
             = Some (View true (bubbles_from (next_widget s) (omap turn_of lines)))
          /\ files s' = files s).
Proof.
  split; [|split; [|split]].
  - intros s s' Hact Hclose.
    unfold action_close_tab, _active_session_id in Hclose.
    rewrite bind_gets, Hact in Hclose.
    pose proof (permanently_delete_removes w (active s) s I) as H.
    rewrite Hclose in H. exact H.
  - intros s Hact Hp.
    unfold model_response, model_response_dispatch, _active_session_id.
    unfold bind at 1. rewrite bind_gets, Hact. cbn [negb].
    rewrite bind_gets, Hp.
    change (PyStr.startswith "/close" "/rename ") with false.
    change (String.eqb "/close" "/new") with false.
    change (String.eqb "/close" "/close") with true.
    change (negb (truthy "/close")) with false. cbv iota.
    unfold ta_clear, bind, modify, ret.
    destruct (action_close_tab w (set_ta_text "" s)) as [[] s'|e s'];
      reflexivity.
  - intros sid s.
    exact (stable_state_of _ _ s
             (close_tab_only_frame w sid (files s) (tree_children s) (tree_nodes s))
             (conj eq_refl (conj eq_refl eq_refl))).
  - intros sid lines s Hsid Hstrip Hidle Hact Hpane Hf Hwf.
    eexists. split.
    { apply (reselect_reloads w sid lines s); assumption. }
    split; [rewrite mount_all_panes; reflexivity|].
    split; [rewrite mount_all_active; reflexivity|].
    split; [|rewrite mount_all_files; reflexivity].
    set (s1 := set_views _ _).
    assert (Hs1 : views s1 !! sid = Some (View true [])).
    { unfold s1. simpl. apply lookup_insert_eq. }
    rewrite mount_all_view by (rewrite Hs1; eauto).
    unfold view_attached, bubbles_of. rewrite Hs1. reflexivity.
Qed.

Lemma C2_witness :
  (os_remove quiet_world (session_file (active restored)) = None ->
   files (state_of (action_close_tab quiet_world restored))
     !! session_file (active restored) = None)
  /\ tree_nodes (state_of (action_close_tab quiet_world restored))
       !! active restored = None.
Proof.
  apply (proj1 (C2_close_chat_deletes quiet_world) restored).
  - vm_compute. reflexivity.
  - vm_compute. reflexivity.
Defined.

(** Two sessions restored from their logs, [chat_002] active.  Closing
    the chat with the key binding, or with [/close], deletes the log of
    [chat_002] and removes its leaf from the tree: nothing is left to
    select again, and the two persisted turns are lost. *)
Lemma C2_counterexample :
  active restored = "chat_002"
  /\ files restored !! "chat_002.jsonl"
     = Some [Rec (Some "user") (Some "2+2?"); Rec (Some "assistant") (Some "4")]
  /\ (n_data <$> tree_children restored) = ["chat_001"; "chat_002"]
  /\ (exists s',
        action_close_tab quiet_world restored = Ok tt s'
        /\ files s' !! "chat_002.jsonl" = None
        /\ (n_data <$> tree_children s') = ["chat_001"])
  /\ (exists s',
        model_response quiet_world (set_ta_text "/close" restored) = Ok tt s'
        /\ files s' !! "chat_002.jsonl" = None
        /\ (n_data <$> tree_children s') = ["chat_001"]).
Proof.
  split; [vm_compute; reflexivity|].
  split; [vm_compute; reflexivity|].
  split; [vm_compute; reflexivity|].
  split.
  - eexists. split; [vm_compute; reflexivity|].
    split; vm_compute; reflexivity.
  - eexists. split; [vm_compute; reflexivity|].
    split; vm_compute; reflexivity.
Qed.

(** ** Renaming a chat *)








(** ** Session ids *)

Section SortBy.

Context (key : string -> nat).

Lemma elem_of_insert_by x y l : y ∈ insert_by key x l <-> y = x \/ y ∈ l.
Proof.
  induction l as [|z l IH]; simpl.
  - rewrite list_elem_of_singleton. rewrite elem_of_nil. tauto.
  - destruct (key x <=? key z)%nat.
    + rewrite elem_of_cons. tauto.
    + rewrite !elem_of_cons, IH. tauto.
Qed.

Lemma elem_of_sort_by y l : y ∈ sort_by key l <-> y ∈ l.
Proof.
  induction l as [|x l IH]; simpl; [tauto|].
  rewrite elem_of_insert_by, IH, elem_of_cons. tauto.
Qed.

Lemma insert_by_sorted x l :
  StronglySorted (key_le key) l -> StronglySorted (key_le key) (insert_by key x l).
Proof.
  induction 1 as [|z l Hl IH Hz]; simpl.
  - repeat constructor.
  - destruct (key x <=? key z)%nat eqn:Hxz.
    + apply Nat.leb_le in Hxz. constructor; [constructor; assumption|].
      constructor; [exact Hxz|].
      eapply Forall_impl; [exact Hz|]. unfold key_le. intros; lia.
    + apply Nat.leb_gt in Hxz. constructor; [exact IH|].
      apply Forall_forall. intros y Hy.
      apply elem_of_insert_by in Hy as [->|Hy].
      * unfold key_le. lia.
      * rewrite Forall_forall in Hz. apply Hz, Hy.
Qed.

Lemma sort_by_sorted l : StronglySorted (key_le key) (sort_by key l).
Proof.
  induction l as [|x l IH]; simpl; [constructor|].
  apply insert_by_sorted, IH.
Qed.

Lemma sorted_last_max l m x :
  StronglySorted (key_le key) l -> last l = Some m -> x ∈ l -> key x <= key m.
Proof.
  induction 1 as [|z l Hl IH Hz]; intros Hm Hx; [inversion Hx|].
  destruct l as [|z' l'].
  - simpl in Hm. injection Hm as <-.
    apply list_elem_of_singleton in Hx as ->. lia.
  - rewrite last_cons_cons in Hm.
    apply elem_of_cons in Hx as [->|Hx]; [|exact (IH Hm Hx)].
    rewrite Forall_forall in Hz.
    assert (Hmin : m ∈ z' :: l').
    { apply list_elem_of_lookup. exists (length l').
      rewrite last_lookup in Hm. exact Hm. }
    exact (Hz m Hmin).
Qed.

End SortBy.

Section Decimal.

Import PyStr.

Lemma chars_of_chars l : chars (of_chars l) = l.
Proof. apply list_ascii_of_string_of_list_ascii. Qed.

Lemma nat_of_digit_char d : d < 10 -> nat_of_ascii (digit_char d) = 48 + d.
Proof. intros Hd. unfold digit_char. apply nat_ascii_embedding. lia. Qed.

Lemma digit_val_char d : d < 10 -> digit_val (digit_char d) = d.
Proof. intros Hd. unfold digit_val. rewrite nat_of_digit_char by exact Hd. lia. Qed.

Lemma is_digit_char d : d < 10 -> is_digit (digit_char d) = true.
Proof.
  intros Hd. unfold is_digit. rewrite nat_of_digit_char by exact Hd.
  apply andb_true_intro. split; apply Nat.leb_le; lia.
Qed.

Lemma is_digit_not_underscore c : is_digit c = true -> Ascii.eqb c "_" = false.
Proof.
  intros Hc. apply Ascii.eqb_neq. intros ->. vm_compute in Hc. discriminate.
Qed.

Lemma decimal_fuel_app fuel n acc :
  decimal_fuel fuel n acc = decimal_fuel fuel n [] ++ acc.
Proof.
  revert n acc. induction fuel as [|fuel IH]; intros n acc;
    cbn [decimal_fuel]; [reflexivity|].
  destruct (n <? 10)%nat; [reflexivity|].
  rewrite (IH _ (_ :: acc)), (IH _ [_]), <- app_assoc. reflexivity.
Qed.

Lemma decimal_fuel_digits fuel n :
  Forall (fun c => is_digit c = true) (decimal_fuel fuel n []).
Proof.
  revert n. induction fuel as [|fuel IH]; intros n; cbn [decimal_fuel];
    [constructor|].
  assert (Hd : is_digit (digit_char (n mod 10)) = true).
  { apply is_digit_char. apply Nat.mod_upper_bound. lia. }
  destruct (n <? 10)%nat; [repeat constructor; exact Hd|].
  rewrite decimal_fuel_app. apply Forall_app. split; [apply IH|].
  repeat constructor. exact Hd.
Qed.

Lemma decimal_fuel_value fuel n :
  n < fuel ->
  fold_left (fun acc c => 10 * acc + digit_val c) (decimal_fuel fuel n []) 0 = n.
Proof.
  revert n. induction fuel as [|fuel IH]; intros n Hn; [lia|].
  cbn [decimal_fuel].
  destruct (n <? 10)%nat eqn:Hlt.
  - apply Nat.ltb_lt in Hlt. cbn [fold_left].
    rewrite Nat.mod_small by exact Hlt. rewrite digit_val_char by exact Hlt. lia.
  - apply Nat.ltb_ge in Hlt. rewrite decimal_fuel_app, fold_left_app.
    cbn [fold_left]. rewrite IH.
    + rewrite digit_val_char by (apply Nat.mod_upper_bound; lia).
      pose proof (Nat.div_mod_eq n 10). lia.
    + assert (n / 10 < n) by (apply Nat.div_lt; lia). lia.
Qed.

Lemma fold_zeros k l :
  fold_left (fun acc c => 10 * acc + digit_val c) (replicate k "0"%char ++ l) 0
  = fold_left (fun acc c => 10 * acc + digit_val c) l 0.
Proof. induction k as [|k IH]; simpl; [reflexivity|exact IH]. Qed.

(** [int(f"{n:03d}") == n] *)
Lemma int_format_03d n : int (format_03d n) = n.
Proof.
  unfold int, format_03d. cbv zeta. rewrite chars_of_chars, fold_zeros.
  apply decimal_fuel_value. lia.
Qed.

Lemma format_03d_digits n :
  Forall (fun c => is_digit c = true) (chars (format_03d n)).
Proof.
  unfold format_03d. cbv zeta. rewrite chars_of_chars. apply Forall_app. split.
  - apply Forall_forall. intros c Hc. apply elem_of_replicate in Hc as [-> _].
    reflexivity.
  - apply decimal_fuel_digits.
Qed.

Lemma split_chars_no_sep sep cur l :
  Forall (fun c => Ascii.eqb c sep = false) l ->
  split_chars sep cur l = [of_chars (rev cur ++ l)].
Proof.
  revert cur. induction l as [|c l IH]; intros cur Hl; simpl.
  - rewrite app_nil_r. reflexivity.
  - inversion Hl as [|? ? Hc Hl']; subst. rewrite Hc, IH by exact Hl'.
    simpl. rewrite <- app_assoc. reflexivity.
Qed.

Lemma of_chars_chars s : of_chars (chars s) = s.
Proof. apply string_of_list_ascii_of_string. Qed.

(** The ordinal of a freshly formatted session id. *)
Lemma ordinal_format_03d n : ordinal ("chat_" +:+ format_03d n) = n.
Proof.
  unfold ordinal, split. simpl.
  rewrite split_chars_no_sep.
  - simpl. rewrite of_chars_chars. apply int_format_03d.
  - eapply Forall_impl; [apply format_03d_digits|].
    intros c Hc. apply is_digit_not_underscore. exact Hc.
Qed.

End Decimal.

Lemma list_session_ids_sorted fs l id :
  last (list_session_ids fs) = Some l ->
  id ∈ list_session_ids fs ->
  ordinal id <= ordinal l.
Proof.
  unfold list_session_ids. intros Hl Hid.
  eapply sorted_last_max; [apply sort_by_sorted|exact Hl|exact Hid].
Qed.


(** C4, as amended.  A newly minted id is [chat_001] when no session log
    is listed, and otherwise [chat_] followed by the largest listed
    ordinal plus one; it differs from the id of every session whose log is
    listed at that moment.  Ids of sessions deleted earlier in the run are
    not remembered. *)
Theorem C4_next_session_id_fresh (fs : directory) :
  (next_session_id fs ∉ list_session_ids fs)
  /\ (list_session_ids fs = [] -> next_session_id fs = "chat_001")
  /\ (forall l,
        last (list_session_ids fs) = Some l ->
        next_session_id fs = "chat_" +:+ PyStr.format_03d (ordinal l + 1)
        /\ ordinal (next_session_id fs) = ordinal l + 1
        /\ forall id, id ∈ list_session_ids fs -> ordinal id <= ordinal l).
Proof.
  assert (Hnext : forall l,
    last (list_session_ids fs) = Some l ->
    next_session_id fs = "chat_" +:+ PyStr.format_03d (ordinal l + 1)).
  { intros l Hl. unfold next_session_id. rewrite Hl. reflexivity. }
  split; [|split].
  - intros Hin. destruct (last (list_session_ids fs)) as [l|] eqn:Hl.
    + pose proof (list_session_ids_sorted fs l _ Hl Hin) as Hle.
      rewrite (Hnext l eq_refl), ordinal_format_03d in Hle. lia.
    + apply last_None in Hl. rewrite Hl in Hin. inversion Hin.
  - intros Hnil. unfold next_session_id. rewrite Hnil. reflexivity.
  - intros l Hl. split; [exact (Hnext l Hl)|]. split.
    + rewrite (Hnext l Hl). apply ordinal_format_03d.
    + intros id Hid. exact (list_session_ids_sorted fs l id Hl Hid).
Qed.

Lemma C4_witness :
  next_session_id two_logs = "chat_" +:+ PyStr.format_03d (ordinal "chat_002" + 1)
  /\ ordinal (next_session_id two_logs) = ordinal "chat_002" + 1
  /\ forall id, id ∈ list_session_ids two_logs -> ordinal id <= ordinal "chat_002".
Proof.
  apply (proj2 (proj2 (C4_next_session_id_fresh two_logs)) "chat_002").
  vm_compute. reflexivity.
Defined.

(** One run: start-up on an empty directory mints [chat_001], a new chat
    mints [chat_002], that chat is deleted, and the next id minted is
    [chat_002] again. *)
Lemma C4_counterexample :
  next_session_id (files (fresh_app ∅)) = "chat_001"
  /\ next_session_id (files one_session) = "chat_002"
  /\ (p_id <$> panes two_sessions) = ["chat_001"; "chat_002"]
  /\ exists s',
       _permanently_delete_chat quiet_world "chat_002" two_sessions = Ok tt s'
       /\ files s' !! "chat_002.jsonl" = None
       /\ next_session_id (files s') = "chat_002"
       /\ (p_id <$> panes (state_of (action_new_tab quiet_world s')))
          = ["chat_001"; "chat_002"].
Proof.
  split; [vm_compute; reflexivity|].
  split; [vm_compute; reflexivity|].
  split; [vm_compute; reflexivity|].
  eexists. split; [vm_compute; reflexivity|].
  repeat split; vm_compute; reflexivity.
Qed.


(** * Further properties of the code *)

(** ** Listing the sessions *)

Lemma chars_append a b : PyStr.chars (a +:+ b) = PyStr.chars a ++ PyStr.chars b.
Proof.
  induction a as [|c a IH]; simpl; [reflexivity|].
  unfold PyStr.chars in *. simpl. rewrite IH. reflexivity.
Qed.

Lemma chars_inj a b : PyStr.chars a = PyStr.chars b -> a = b.
Proof.
  intros H. rewrite <- (of_chars_chars a), <- (of_chars_chars b), H.
  reflexivity.
Qed.

(** A file name the pattern accepts is the log of the id it yields. *)
Lemma SESSION_PATTERN_match_Some name g :
  SESSION_PATTERN_match name = Some g ->
  name = session_file ("chat_" +:+ g) /\ is_session_id ("chat_" +:+ g).
Proof.
  unfold SESSION_PATTERN_match.
  destruct (_ && _) eqn:Hc; [|discriminate]. intros [= <-].
  apply andb_prop in Hc as [Hc Htail]. apply andb_prop in Hc as [Hc Hd].
  apply andb_prop in Hc as [Hhead Hlen]. apply Nat.eqb_eq in Hlen.
  apply bool_decide_eq_true in Hhead, Htail.
  split.
  - apply chars_inj. unfold session_file.
    rewrite !chars_append, chars_of_chars, <- Hhead, <- Htail, <- app_assoc.
    set (cs := PyStr.chars name).
    change 8 with (5 + 3). rewrite <- (drop_drop cs 3 5), !take_drop.
    reflexivity.
  - eexists. split; [reflexivity|]. split; assumption.
Qed.

(** The log of a well-formed id is accepted by the glob and the pattern. *)
Lemma SESSION_PATTERN_match_session_file ds :
  length ds = 3 ->
  forallb PyStr.is_digit ds = true ->
  glob_match (session_file ("chat_" +:+ PyStr.of_chars ds)) = true
  /\ SESSION_PATTERN_match (session_file ("chat_" +:+ PyStr.of_chars ds))
     = Some (PyStr.of_chars ds).
Proof.
  intros Hlen Hd.
  destruct ds as [|d1 [|d2 [|d3 [|]]]]; try discriminate.
  assert (Hc : PyStr.chars (session_file ("chat_" +:+ PyStr.of_chars [d1; d2; d3]))
               = PyStr.chars "chat_" ++ [d1; d2; d3] ++ PyStr.chars ".jsonl")
    by reflexivity.
  unfold glob_match, SESSION_PATTERN_match. cbv zeta. rewrite Hc.
  change (take 3 (drop 5 (PyStr.chars "chat_" ++ [d1; d2; d3] ++ PyStr.chars ".jsonl")))
    with [d1; d2; d3].
  rewrite Hd. split; reflexivity.
Qed.

Lemma elem_of_list_session_ids (fs : directory) (id : string) :
  id ∈ list_session_ids fs
  <-> is_session_id id /\ is_Some (fs !! session_file id).
Proof.
  unfold list_session_ids. rewrite elem_of_sort_by, list_elem_of_omap. split.
  - intros (name & Hname & Hid).
    destruct (glob_match name); [|discriminate].
    destruct (SESSION_PATTERN_match name) as [g|] eqn:Hg; [|discriminate].
    injection Hid as <-.
    apply SESSION_PATTERN_match_Some in Hg as [-> Hshape].
    split; [exact Hshape|].
    apply list_elem_of_fmap in Hname as ([k v] & -> & Hkv).
    apply elem_of_map_to_list in Hkv. simpl. eauto.
  - intros [(ds & -> & Hlen & Hd) [v Hv]].
    exists (session_file ("chat_" +:+ PyStr.of_chars ds)). split.
    + apply list_elem_of_fmap. exists (session_file ("chat_" +:+ PyStr.of_chars ds), v).
      split; [reflexivity|]. apply elem_of_map_to_list. exact Hv.
    + destruct (SESSION_PATTERN_match_session_file ds Hlen Hd) as [-> ->].
      reflexivity.
Qed.

(** X1. [list_session_ids] lists exactly the ids of the form [chat_ddd]
    whose log file [chat_ddd.jsonl] is in the history directory; files
    with other names are ignored. *)
Theorem list_session_ids_spec (fs : directory) (id : string) :
  id ∈ list_session_ids fs
  <-> is_session_id id /\ is_Some (fs !! session_file id).
Proof. apply elem_of_list_session_ids. Qed.

Lemma insert_by_Permutation key x l : insert_by key x l ≡ₚ x :: l.
Proof.
  induction l as [|y l IH]; simpl; [reflexivity|].
  destruct (key x <=? key y)%nat; [reflexivity|].
  rewrite IH. apply Permutation_swap.
Qed.

Lemma sort_by_Permutation key l : sort_by key l ≡ₚ l.
Proof.
  induction l as [|x l IH]; simpl; [reflexivity|].
  rewrite insert_by_Permutation, IH. reflexivity.
Qed.

Lemma NoDup_omap_inj {A B} (f : A -> option B) (l : list A) :
  NoDup l ->
  (forall x y z, x ∈ l -> y ∈ l -> f x = Some z -> f y = Some z -> x = y) ->
  NoDup (omap f l).
Proof.
  induction 1 as [|x l Hx Hl IH]; intros Hinj; simpl; [constructor|].
  assert (Hrest : NoDup (omap f l)).
  { apply IH. intros a b z Ha Hb. apply Hinj; apply elem_of_cons; auto. }
  destruct (f x) as [z|] eqn:Hz; [|exact Hrest].
  constructor; [|exact Hrest].
  intros Hin. apply list_elem_of_omap in Hin as (y & Hy & Hfy).
  assert (x = y).
  { apply (Hinj x y z); [apply elem_of_cons; auto|apply elem_of_cons; auto| |];
      assumption. }
  subst y. contradiction.
Qed.

Lemma NoDup_list_session_ids (fs : directory) :
  NoDup (list_session_ids fs).
Proof.
  unfold list_session_ids. rewrite sort_by_Permutation.
  apply NoDup_omap_inj; [apply NoDup_fst_map_to_list|].
  intros x y z _ _ Hx Hy.
  destruct (glob_match x); [|discriminate].
  destruct (glob_match y); [|discriminate].
  destruct (SESSION_PATTERN_match x) as [gx|] eqn:Hgx; [|discriminate].
  destruct (SESSION_PATTERN_match y) as [gy|] eqn:Hgy; [|discriminate].
  simpl in Hx, Hy.
  apply SESSION_PATTERN_match_Some in Hgx as [-> _].
  apply SESSION_PATTERN_match_Some in Hgy as [-> _].
  congruence.
Qed.

(** X2. [list_session_ids] returns the ids in ascending order of their
    ordinal, and no id twice. *)
Theorem list_session_ids_sorted_nodup (fs : directory) :
  StronglySorted (key_le ordinal) (list_session_ids fs)
  /\ NoDup (list_session_ids fs).
Proof.
  split; [apply sort_by_sorted|apply NoDup_list_session_ids].
Qed.

(** ** Minting ids at the bound of the pattern *)

Lemma decimal_fuel_indep f1 f2 n :
  n < f1 -> n < f2 ->
  PyStr.decimal_fuel f1 n [] = PyStr.decimal_fuel f2 n [].
Proof.
  revert f2 n. induction f1 as [|f1 IH]; intros f2 n H1 H2; [lia|].
  destruct f2 as [|f2]; [lia|]. cbn [PyStr.decimal_fuel].
  destruct (n <? 10)%nat eqn:Hlt; [reflexivity|].
  apply Nat.ltb_ge in Hlt.
  assert (n / 10 < n) by (apply Nat.div_lt; lia).
  rewrite (decimal_fuel_app f1), (decimal_fuel_app f2).
  f_equal. apply IH; lia.
Qed.

Lemma decimal_unfold n :
  PyStr.decimal n
  = if (n <? 10)%nat then [PyStr.digit_char (n mod 10)]
    else PyStr.decimal (n / 10) ++ [PyStr.digit_char (n mod 10)].
Proof.
  destruct (n <? 10)%nat eqn:Hlt.
  - unfold PyStr.decimal. cbn [PyStr.decimal_fuel]. rewrite Hlt. reflexivity.
  - unfold PyStr.decimal at 1. cbn [PyStr.decimal_fuel]. rewrite Hlt.
    apply Nat.ltb_ge in Hlt.
    assert (n / 10 < n) by (apply Nat.div_lt; lia).
    rewrite decimal_fuel_app. f_equal. apply decimal_fuel_indep; lia.
Qed.

Lemma decimal_length n :
  length (PyStr.decimal n)
  = if (n <? 10)%nat then 1 else S (length (PyStr.decimal (n / 10))).
Proof.
  rewrite decimal_unfold at 1. destruct (n <? 10)%nat; [reflexivity|].
  rewrite length_app. simpl. lia.
Qed.

Lemma decimal_length_pos n : 1 <= length (PyStr.decimal n).
Proof. rewrite decimal_length. destruct (n <? 10)%nat; lia. Qed.

(** [str(n)] has at most three digits exactly when [n < 1000]. *)
Lemma decimal_length_le_3 n : length (PyStr.decimal n) <= 3 <-> n < 1000.
Proof.
  rewrite (decimal_length n).
  destruct (n <? 10)%nat eqn:H1;
    [apply Nat.ltb_lt in H1; lia|apply Nat.ltb_ge in H1].
  rewrite (decimal_length (n / 10)).
  pose proof (Nat.div_mod_eq n 10) as E1.
  pose proof (Nat.mod_upper_bound n 10 ltac:(lia)) as B1.
  destruct (n / 10 <? 10)%nat eqn:H2;
    [apply Nat.ltb_lt in H2; lia|apply Nat.ltb_ge in H2].
  rewrite (decimal_length (n / 10 / 10)).
  pose proof (Nat.div_mod_eq (n / 10) 10) as E2.
  pose proof (Nat.mod_upper_bound (n / 10) 10 ltac:(lia)) as B2.
  destruct (n / 10 / 10 <? 10)%nat eqn:H3;
    [apply Nat.ltb_lt in H3; lia|apply Nat.ltb_ge in H3].
  pose proof (decimal_length_pos (n / 10 / 10 / 10)). lia.
Qed.

Lemma format_03d_length n :
  length (PyStr.chars (PyStr.format_03d n)) = 3 <-> n < 1000.
Proof.
  unfold PyStr.format_03d. cbv zeta.
  rewrite chars_of_chars, length_app, length_replicate.
  rewrite <- decimal_length_le_3. pose proof (decimal_length_pos n).
  lia.
Qed.

Lemma minted_id_shape n :
  is_session_id ("chat_" +:+ PyStr.format_03d n) <-> n < 1000.
Proof.
  rewrite <- format_03d_length. split.
  - intros (ds & Heq & Hlen & _). simpl in Heq. injection Heq as Heq.
    change (PyStr.format_03d n = PyStr.of_chars ds) in Heq.
    rewrite Heq, chars_of_chars. exact Hlen.
  - intros Hlen. exists (PyStr.chars (PyStr.format_03d n)).
    rewrite of_chars_chars. split; [reflexivity|]. split; [exact Hlen|].
    apply forallb_forall. intros c Hc.
    pose proof (format_03d_digits n) as Hd. rewrite Forall_forall in Hd.
    apply Hd. apply list_elem_of_In. exact Hc.
Qed.

(** X3. The log created for a minted ordinal [n] is found again by
    [list_session_ids] exactly when [n < 1000]: from 1000 on, the file
    name written by the [03d] format has four digits and the three-digit
    pattern does not list it. *)
Theorem minted_session_listed_iff (fs : directory) (n : nat)
    (lines : list jsonl_line) :
  let sid := "chat_" +:+ PyStr.format_03d n in
  sid ∈ list_session_ids (<[ session_file sid := lines ]> fs) <-> n < 1000.
Proof.
  intros sid. unfold sid.
  rewrite elem_of_list_session_ids, minted_id_shape, lookup_insert_eq.
  split; [tauto|]. intros H. split; [exact H|eauto].
Qed.

Lemma session_file_inj a b : session_file a = session_file b -> a = b.
Proof.
  unfold session_file. intros H. apply chars_inj.
  apply (f_equal PyStr.chars) in H. rewrite !chars_append in H.
  apply app_inv_tail in H. exact H.
Qed.

Lemma chat_1000_not_session_id : ~ is_session_id "chat_1000".
Proof.
  intros (ds & Heq & Hlen & _). simpl in Heq. injection Heq as Heq.
  apply (f_equal PyStr.chars) in Heq.
  change (PyStr.chars "1000" = PyStr.chars (PyStr.of_chars ds)) in Heq.
  rewrite chars_of_chars in Heq. subst ds. discriminate.
Qed.

(** X4. Once the largest listed ordinal is 999, the id minted is
    [chat_1000], and it is minted again after its log was created: the
    log of [chat_1000] is not listed, so a second new chat reuses the id
    of a session that still exists. *)
Theorem next_session_id_stuck_at_1000 (fs : directory) (l : string) :
  last (list_session_ids fs) = Some l ->
  ordinal l = 999 ->
  next_session_id fs = "chat_1000"
  /\ next_session_id
       (<[ session_file "chat_1000"
           := default [] (fs !! session_file "chat_1000") ]> fs)
     = "chat_1000".
Proof.
  intros Hl H999.
  assert (Hnext : forall fs' l',
            last (list_session_ids fs') = Some l' -> ordinal l' = 999 ->
            next_session_id fs' = "chat_1000").
  { intros fs' l' Hl' Ho. unfold next_session_id. rewrite Hl', Ho.
    reflexivity. }
  split; [exact (Hnext fs l Hl H999)|].
  set (fs' := <[ _ := _ ]> fs).
  assert (Hsame : forall id, id ∈ list_session_ids fs' <-> id ∈ list_session_ids fs).
  { intros id. rewrite !elem_of_list_session_ids.
    split; intros [Hshape Hfile]; (split; [exact Hshape|]).
    - unfold fs' in Hfile. rewrite lookup_insert_ne in Hfile; [exact Hfile|].
      intros Heq. apply session_file_inj in Heq. subst id.
      exact (chat_1000_not_session_id Hshape).
    - unfold fs'. rewrite lookup_insert_ne; [exact Hfile|].
      intros Heq. apply session_file_inj in Heq. subst id.
      exact (chat_1000_not_session_id Hshape). }
  assert (Hin : l ∈ list_session_ids fs) by (apply last_Some_elem_of; exact Hl).
  destruct (last (list_session_ids fs')) as [l'|] eqn:Hl'.
  - apply (Hnext fs' l' Hl').
    assert (Hin' : l' ∈ list_session_ids fs') by (apply last_Some_elem_of; exact Hl').
    pose proof (list_session_ids_sorted fs l l' Hl (proj1 (Hsame l') Hin')).
    pose proof (list_session_ids_sorted fs' l' l Hl' (proj2 (Hsame l) Hin)).
    lia.
  - apply last_None in Hl'. apply Hsame in Hin. rewrite Hl' in Hin.
    inversion Hin.
Qed.

Lemma next_session_id_stuck_at_1000_witness :
  next_session_id (<[ "chat_999.jsonl" := [] ]> ∅) = "chat_1000"
  /\ next_session_id
       (<[ session_file "chat_1000"
           := default [] ((<[ "chat_999.jsonl" := [] ]> ∅ : directory)
                          !! session_file "chat_1000") ]>
          (<[ "chat_999.jsonl" := [] ]> ∅))
     = "chat_1000".
Proof.
  apply (next_session_id_stuck_at_1000 (<[ "chat_999.jsonl" := [] ]> ∅) "chat_999").
  - vm_compute. reflexivity.
  - vm_compute. reflexivity.
Defined.

(** ** Failures that stay inside the handlers *)

Section Safe.

Context {A B : Type}.






End Safe.



Section NoRaise.

Context (w : World) (Hsel : forall n, tree_select_node w n = None)
        (Hmount : mount_detached w = None).







End NoRaise.



(** ** The logs are append-only *)

Lemma bind_assoc_gets {A B C} (f : App -> A) (k1 : A -> M B) (k2 : B -> M C) s :
  bind (bind (gets f) k1) k2 s = bind (k1 (f s)) k2 s.
Proof. reflexivity. Qed.

Section AppendOnly.

Context (w : World) (path : string) (lines : list jsonl_line).

Lemma extended_touch p : stable (log_extended path lines) (touch p).
Proof.
  apply stable_modify. intros s [more Hs]. unfold log_extended. simpl.
  destruct (decide (p = path)) as [->|Hne].
  - rewrite lookup_insert_eq, Hs. simpl. eauto.
  - rewrite lookup_insert_ne by exact Hne. eauto.
Qed.

Lemma extended_save_message role content sid :
  stable (log_extended path lines) (save_message role content sid).
Proof.
  apply stable_modify. intros s [more Hs]. unfold log_extended. simpl.
  destruct (decide (session_file sid = path)) as [<-|Hne].
  - rewrite lookup_insert_eq, Hs. simpl. rewrite <- app_assoc. eauto.
  - rewrite lookup_insert_ne by exact Hne. eauto.
Qed.

Lemma extended_load_lines sid ls :
  stable (log_extended path lines) (load_lines w sid ls).
Proof.
  induction ls as [|[| | |] ls IH]; simpl; unfold_handlers; stable_auto.
Qed.

Lemma extended_mount_existing existing :
  stable (log_extended path lines) (mount_existing w existing).
Proof.
  pose proof extended_load_lines.
  induction existing as [|sid rest IH]; simpl; unfold_handlers; stable_auto.
Qed.

Lemma extended_new_tab : stable (log_extended path lines) (action_new_tab w).
Proof.
  pose proof extended_touch. unfold_handlers. unfold silently. stable_auto.
Qed.

Lemma extended_deliver r response :
  stable (log_extended path lines) (model_response_deliver w r response).
Proof.
  pose proof extended_save_message. unfold_handlers. stable_auto.
Qed.

Lemma extended_model_response s :
  String.eqb (PyStr.strip (ta_text s)) "/close" = false ->
  String.eqb (PyStr.strip (ta_text s)) "/delete" = false ->
  log_extended path lines s ->
  log_extended path lines (state_of (model_response w s)).
Proof.
  intros Hclose Hdelete Hs.
  pose proof extended_save_message. pose proof extended_new_tab.
  pose proof extended_deliver.
  unfold model_response, model_response_dispatch, _active_session_id.
  rewrite bind_assoc_gets.
  destruct (negb (truthy (active s))); [exact Hs|].
  rewrite bind_assoc_gets. rewrite Hclose, Hdelete.
  destruct (negb (truthy (PyStr.strip (ta_text s)))); [exact Hs|].
  apply stable_state_of; [|exact Hs].
  destruct (PyStr.startswith _ _);
    [|destruct (String.eqb _ "/new")];
    unfold get_pane, set_pane_title, set_label, _system_bubble, add_message,
      _current_view, _active_session_id, get_pane, ta_clear;
    stable_auto.
Qed.

Lemma extended_handle ev s :
  deletes ev s = false ->
  log_extended path lines s ->
  log_extended path lines (state_of (handle w ev s)).
Proof.
  intros Hdel Hs.
  pose proof extended_touch. pose proof extended_load_lines.
  pose proof extended_mount_existing.
  destruct ev as [|event|bid|[]]; simpl in *; try discriminate.
  - apply stable_state_of; [|exact Hs].
    unfold on_mount. unfold_handlers. unfold silently. stable_auto.
  - apply stable_state_of; [|exact Hs].
    unfold_handlers. stable_auto.
  - unfold on_button_pressed. rewrite Hdel.
    destruct (String.eqb bid "btn_new"); [|exact Hs].
    apply stable_state_of; [apply extended_new_tab|exact Hs].
  - apply orb_false_elim in Hdel as [Hclose Hdelete].
    apply extended_model_response; assumption.
  - apply stable_state_of; [apply extended_new_tab|exact Hs].
  - apply stable_state_of; [|exact Hs]. unfold_handlers. stable_auto.
Qed.

(** Deleting one chat leaves the log at any other path as it is. *)
Lemma delete_keeps_other_logs sid :
  path <> session_file sid ->
  stable (fun s => files s !! path = Some lines)
    (_permanently_delete_chat w sid).
Proof.
  intros Hne.
  assert (Htouch : forall p, stable (fun s => files s !! path = Some lines) (touch p)).
  { intros p. apply stable_modify. intros s Hs. simpl.
    destruct (decide (p = path)) as [->|Hp].
    - rewrite lookup_insert_eq, Hs. reflexivity.
    - rewrite lookup_insert_ne by exact Hp. exact Hs. }
  unfold_handlers. unfold silently. stable_auto.
  rewrite lookup_delete_ne by (intros Heq; apply Hne; symmetry; exact Heq).
  assumption.
Qed.

End AppendOnly.

(** X6. Apart from the events that delete a chat (the close-chat key, the
    delete button, a send of [/close] or [/delete]), every event leaves
    every log in place and only ever appends to it: what was in a log
    before the handler ran is a prefix of what is in it afterwards,
    whether the handler returns or raises. *)
Theorem logs_are_append_only (w : World) (ev : ui_event) (s : App)
    (path : string) (lines : list jsonl_line) :
  deletes ev s = false ->
  files s !! path = Some lines ->
  exists more, files (state_of (handle w ev s)) !! path = Some (lines ++ more).
Proof.
  intros Hdel Hs. apply (extended_handle w path lines ev s Hdel).
  exists []. rewrite app_nil_r. exact Hs.
Qed.

Lemma logs_are_append_only_witness :
  exists more,
    files (state_of (handle quiet_world (Key send)
                       (set_ta_text "2+3?" restored)))
      !! "chat_002.jsonl"
    = Some ([Rec (Some "user") (Some "2+2?"); Rec (Some "assistant") (Some "4")]
            ++ more).
Proof.
  apply logs_are_append_only; vm_compute; reflexivity.
Defined.

(** X7. Permanently deleting one chat never changes the log of another:
    a log at a path other than the deleted chat's keeps its exact
    contents, also when a replacement chat is created on the way and
    whether the handler returns or raises. *)
Theorem delete_is_targeted (w : World) (sid : string) (s : App)
    (path : string) (lines : list jsonl_line) :
  path <> session_file sid ->
  files s !! path = Some lines ->
  files (state_of (_permanently_delete_chat w sid s)) !! path = Some lines.
Proof.
  intros Hne Hs.
  exact (stable_state_of _ _ s (delete_keeps_other_logs w path lines sid Hne) Hs).
Qed.

Lemma delete_is_targeted_witness :
  files (state_of (_permanently_delete_chat quiet_world "chat_002" restored))
    !! "chat_001.jsonl"
  = Some [Rec (Some "user") (Some "hi"); Rec (Some "assistant") (Some "hello")].
Proof.
  apply delete_is_targeted; [discriminate|vm_compute; reflexivity].
Defined.

(** ** The tree after a deletion *)




(** With three chats open and the third deleted, the neighbour
    [chat_002] becomes the active tab while the tree selection and
    [_last_tree_sid] go to [chat_001]. *)
Example active_tab_and_tree_disagree :
  let s' := state_of (_permanently_delete_chat quiet_world "chat_003"
                        three_sessions) in
  active s' = "chat_002" /\ _last_tree_sid s' = Some "chat_001".
Proof. split; vm_compute; reflexivity. Qed.

(** X9. The delete button acts on the chat last selected in the tree, not
    on the active tab: when the two differ, the log of the active chat
    keeps its contents, and when the handler returns and [os.remove] did
    not fail, the log and the tree node of the chat selected in the tree
    are gone. *)
Theorem delete_button_targets_tree_selection (w : World) (s : App) (l : string) :
  _last_tree_sid s = Some l ->
  truthy l = true ->
  (active s <> l ->
   forall lines,
     files s !! session_file (active s) = Some lines ->
     files (state_of (on_button_pressed w "btn_delete" s))
       !! session_file (active s) = Some lines)
  /\ (forall s',
        on_button_pressed w "btn_delete" s = Ok tt s' ->
        os_remove w (session_file l) = None ->
        files s' !! session_file l = None /\ tree_nodes s' !! l = None).
Proof.
  intros Hl Ht.
  assert (Heq : on_button_pressed w "btn_delete" s
                = _permanently_delete_chat w l s).
  { unfold on_button_pressed, _active_session_id.
    change (String.eqb "btn_delete" "btn_new") with false.
    change (String.eqb "btn_delete" "btn_delete") with true. cbv iota.
    rewrite !bind_gets, Hl. unfold or_else. rewrite Ht. cbv zeta.
    rewrite Ht. reflexivity. }
  rewrite Heq. split.
  - intros Hne lines Hlines.
    apply (stable_state_of _ _ s
             (delete_keeps_other_logs w (session_file (active s)) lines l
                (fun H => Hne (session_file_inj _ _ H)))).
    exact Hlines.
  - intros s' Hok Hrm.
    pose proof (permanently_delete_removes w l s I) as H.
    rewrite Hok in H. destruct H as [Hf Hn]. auto.
Qed.

Lemma delete_button_targets_tree_selection_witness :
  let s := state_of (_permanently_delete_chat quiet_world "chat_003"
                       three_sessions) in
  files (state_of (on_button_pressed quiet_world "btn_delete" s))
    !! session_file (active s)
  = Some [Rec (Some "user") (Some "2+2?"); Rec (Some "assistant") (Some "4")].
Proof.
  intros s.
  refine (proj1 (delete_button_targets_tree_selection quiet_world s "chat_001" _ _)
            _ _ _).
  - vm_compute. reflexivity.
  - reflexivity.
  - vm_compute. discriminate.
  - vm_compute. reflexivity.
Defined.

(** ** Start-up *)

Lemma hoare_regroup {A B C} P (m : M A) (f : A -> M B) (g : B -> M C) Q E :
  hoare P (bind (bind m f) g) Q E ->
  hoare P (bind m (fun a => bind (f a) g)) Q E.
Proof.
  intros H s Hs. specialize (H s Hs). unfold bind in *.
  destruct (m s); exact H.
Qed.

Lemma hoare_conj {A} P P' (m : M A) (Q Q' : A -> App -> Prop) E E' :
  hoare P m Q E -> hoare P' m Q' E' ->
  hoare (fun s => P s /\ P' s) m (fun a s => Q a s /\ Q' a s)
    (fun s => E s /\ E' s).
Proof.
  intros H H' s [Hs Hs']. specialize (H s Hs). specialize (H' s Hs').
  destruct (m s); auto.
Qed.

Section Restore.

Context (w : World).

Lemma restored_load_lines P C sid ls :
  stable (restored_as P C) (load_lines w sid ls).
Proof.
  induction ls as [|[| | |] ls IH]; simpl; unfold_handlers; stable_auto.
Qed.

(** Creating the tab of [sid] (without a title) and then its leaf. *)
Lemma restored_create_then_leaf P C sid switch load_hist welcome :
  hoare (restored_as P C)
    (_create_tab_for_session w sid switch load_hist welcome None ;;
     _add_tree_node_for_session sid sid)
    (fun _ => restored_as (P ++ [sid]) (C ++ [sid]))
    (fun _ => True).
Proof.
  pose proof restored_load_lines as Hll.
  eapply hoare_bind with (R := fun _ => restored_as (P ++ [sid]) C).
  - unfold _create_tab_for_session, add_pane. cbn [or_else].
    eapply hoare_bind with (R := fun _ => restored_as (P ++ [sid]) C).
    + apply hoare_modify. intros s (Hp & Hc & Ht & Hn).
      unfold restored_as. simpl. rewrite fmap_app, Hp. simpl.
      repeat split; try assumption.
      apply Forall_app. split; [exact Ht|]. repeat constructor.
    + intros ?.
      eapply hoare_conseq with (P' := restored_as (P ++ [sid]) C)
        (Q' := fun _ => restored_as (P ++ [sid]) C)
        (E' := restored_as (P ++ [sid]) C); [|auto|auto|auto].
      as_stable. unfold_handlers. stable_auto.
  - intros ?. unfold _add_tree_node_for_session.
    eapply hoare_bind with (R := fun _ => restored_as (P ++ [sid]) C);
      [apply hoare_gets; auto|]. intros n.
    eapply hoare_bind with (R := fun _ => restored_as (P ++ [sid]) C);
      [apply hoare_modify; auto|]. intros ?.
    eapply hoare_bind with
      (R := fun _ s => p_id <$> panes s = P ++ [sid]
                       /\ n_data <$> tree_children s = C ++ [sid]
                       /\ Forall (fun p => p_title p = p_id p) (panes s)
                       /\ (forall id, id ∈ C -> is_Some (tree_nodes s !! id))).
    + apply hoare_modify. intros s (Hp & Hc & Ht & Hn).
      simpl. rewrite fmap_app, Hc. auto.
    + intros ?. apply hoare_modify. intros s (Hp & Hc & Ht & Hn).
      unfold restored_as. simpl. repeat split; try assumption.
      intros id Hid. apply elem_of_app in Hid as [Hid|Hid].
      * destruct (decide (sid = id)) as [->|Hne].
        -- rewrite lookup_insert_eq. eauto.
        -- rewrite lookup_insert_ne by exact Hne. auto.
      * apply list_elem_of_singleton in Hid as ->.
        rewrite lookup_insert_eq. eauto.
Qed.

Lemma restored_mount_existing existing P :
  hoare (restored_as P P) (mount_existing w existing)
    (fun _ => restored_as (P ++ existing) (P ++ existing)) (fun _ => True).
Proof.
  revert P. induction existing as [|sid rest IH]; intros P; simpl.
  - apply hoare_ret. intros s. rewrite app_nil_r. auto.
  - change (_create_tab_for_session w sid false true false None ;;
            _add_tree_node_for_session sid sid ;; mount_existing w rest)
      with (bind (_create_tab_for_session w sid false true false None)
              (fun _ => bind (_add_tree_node_for_session sid sid)
                          (fun _ => mount_existing w rest))).
    intros s Hs.
    pose proof (restored_create_then_leaf P P sid false true false s Hs) as H1.
    unfold bind in *.
    destruct (_create_tab_for_session w sid false true false None s)
      as [[] s1|]; [|exact I].
    destruct (_add_tree_node_for_session sid sid s1) as [[] s2|]; [|exact I].
    specialize (IH (P ++ [sid]) s2 H1).
    rewrite <- app_assoc in IH. exact IH.
Qed.

Lemma create_then_leaf_activates sid load_hist welcome :
  hoare (fun _ => True)
    (_create_tab_for_session w sid true load_hist welcome None ;;
     _add_tree_node_for_session sid sid)
    (fun _ s => active s = sid) (fun _ => True).
Proof.
  assert (Hll : forall sid' ls,
            stable (fun s => active s = sid) (load_lines w sid' ls)).
  { intros sid' ls. induction ls as [|[| | |] ls IH]; simpl;
      unfold_handlers; stable_auto. }
  eapply hoare_bind with (R := fun _ s => active s = sid).
  - unfold _create_tab_for_session, add_pane.
    apply hoare_bind_any. intros ?.
    eapply hoare_bind with (R := fun _ s => active s = sid).
    + apply hoare_modify. reflexivity.
    + intros ?.
      eapply hoare_conseq with (P' := fun s => active s = sid)
        (Q' := fun _ s => active s = sid) (E' := fun s => active s = sid);
        [|auto|auto|auto].
      as_stable. unfold_handlers. stable_auto.
  - intros ?.
    eapply hoare_conseq with (P' := fun s => active s = sid)
      (Q' := fun _ s => active s = sid) (E' := fun s => active s = sid);
      [|auto|auto|auto].
    as_stable. unfold_handlers. stable_auto.
Qed.

(** Selecting the leaf of a registered session. *)
Lemma select_tree_node_registered sid (Q : App -> Prop) :
  (forall c s, Q s -> Q (set_tree_cursor c s)) ->
  hoare (fun s => Q s /\ is_Some (tree_nodes s !! sid))
    (_select_tree_node w sid)
    (fun _ s => exists s0, Q s0 /\ s = set_last_tree_sid (Some sid) s0)
    (fun _ => True).
Proof.
  intros HQ s [Hs [n Hn]]. unfold _select_tree_node.
  rewrite bind_gets, Hn. unfold select_node.
  destruct (tree_select_node w (Some n)); [exact I|].
  rewrite bind_modify. simpl. eauto.
Qed.

Lemma on_mount_restores_body fs :
  hoare (fun s => restored_as [] [] s /\ files s = fs)
    (match last (list_session_ids fs) with
     | Some l =>
         mount_existing w (list_session_ids fs) ;;
         modify (set_active l) ;;
         _select_tree_node w l
     | None =>
         sid <- gets (fun s => next_session_id (files s)) ;;
         touch (session_file sid) ;;
         _create_tab_for_session w sid true false true None ;;
         _add_tree_node_for_session sid sid ;;
         _select_tree_node w sid
     end)
    (fun _ s =>
       restored_as (startup_ids fs) (startup_ids fs) s
       /\ Some (active s) = last (startup_ids fs)
       /\ _last_tree_sid s = last (startup_ids fs))
    (fun _ => True).
Proof.
  destruct (last (list_session_ids fs)) as [l|] eqn:Hl.
  - assert (Hids : startup_ids fs = list_session_ids fs).
    { unfold startup_ids. destruct (list_session_ids fs); [discriminate|].
      reflexivity. }
    rewrite Hids, Hl.
    eapply hoare_bind with
      (R := fun _ => restored_as (list_session_ids fs) (list_session_ids fs)).
    { eapply hoare_conseq; [apply (restored_mount_existing _ [])| | |];
        simpl; tauto. }
    intros ?.
    eapply hoare_bind with
      (R := fun _ s => (restored_as (list_session_ids fs) (list_session_ids fs) s
                        /\ active s = l)
                       /\ is_Some (tree_nodes s !! l)).
    { apply hoare_modify. intros s Hs. split; [split; [exact Hs|reflexivity]|].
      destruct Hs as (_ & _ & _ & Hn). apply Hn.
      apply last_Some_elem_of. exact Hl. }
    intros ?.
    eapply hoare_conseq;
      [apply (select_tree_node_registered l
                (fun s => restored_as (list_session_ids fs) (list_session_ids fs) s
                          /\ active s = l))| | |]; simpl; auto.
    intros _ s (s0 & [Hr Ha] & ->). simpl. rewrite Ha. auto.
  - apply last_None in Hl.
    assert (Hids : startup_ids fs = [next_session_id fs]).
    { unfold startup_ids, next_session_id. rewrite Hl. reflexivity. }
    rewrite Hids. simpl last.
    eapply hoare_bind with
      (R := fun sid s => sid = next_session_id fs /\ restored_as [] [] s).
    { apply hoare_gets. intros s [Hs ->]. auto. }
    intros sid. apply hoare_assume. intros ->.
    set (sid := next_session_id fs).
    eapply hoare_bind with (R := fun _ => restored_as [] []);
      [apply hoare_modify; auto|]. intros ?.
    apply hoare_regroup.
    eapply hoare_bind with
      (R := fun _ s => (restored_as [sid] [sid] s /\ active s = sid)
                       /\ is_Some (tree_nodes s !! sid)).
    { eapply hoare_conseq;
        [apply hoare_conj;
           [apply (restored_create_then_leaf [] [] sid true false true)
           |apply (create_then_leaf_activates sid false true)]| | |].
      - simpl. auto.
      - simpl. intros _ s [Hr Ha]. split; [split; assumption|].
        destruct Hr as (_ & _ & _ & Hn). apply Hn.
        apply list_elem_of_singleton. reflexivity.
      - auto. }
    intros ?.
    eapply hoare_conseq;
      [apply (select_tree_node_registered sid
                (fun s => restored_as [sid] [sid] s /\ active s = sid))| | |];
      simpl; auto.
    intros _ s (s0 & [Hr Ha] & ->). simpl. rewrite Ha. auto.
Qed.

End Restore.

(** X10. When start-up returns, there is one tab and one tree leaf per
    listed session, in ascending ordinal order (a single [chat_001] when
    the directory lists none); every tab is titled with its session id,
    whatever it had been renamed to in an earlier run; the last session is
    the active tab and the tree selection; and the synchronizer is idle. *)
Theorem on_mount_restores (w : World) (fs : directory) (s' : App) :
  on_mount w (fresh_app fs) = Ok tt s' ->
  p_id <$> panes s' = startup_ids fs
  /\ n_data <$> tree_children s' = startup_ids fs
  /\ (forall p, p ∈ panes s' -> p_title p = p_id p)
  /\ Some (active s') = last (startup_ids fs)
  /\ _last_tree_sid s' = last (startup_ids fs)
  /\ Idle s'.
Proof.
  intros Hm. unfold on_mount in Hm.
  rewrite !bind_modify, bind_gets in Hm.
  cbn [files set_views set_tree_nodes fresh_app] in Hm.
  unfold silently in Hm. rewrite bind_modify in Hm. unfold try_finally in Hm.
  match type of Hm with
  | match ?body ?s1 with _ => _ end = _ =>
      pose proof (on_mount_restores_body w fs s1) as Hb;
      destruct (body s1) as [[] s2|e s2]; [|discriminate]
  end.
  simpl in Hm. injection Hm as <-.
  destruct Hb as ((Hp & Hc & Ht & _) & Ha & Hl).
  { split; [|reflexivity]. unfold restored_as. simpl.
    repeat split; try constructor. intros id Hid. inversion Hid. }
  repeat split; try assumption.
  intros p Hp'. rewrite Forall_forall in Ht. apply Ht. exact Hp'.
Qed.

Lemma on_mount_restores_witness :
  p_id <$> panes three_sessions = startup_ids three_logs
  /\ n_data <$> tree_children three_sessions = startup_ids three_logs
  /\ (forall p, p ∈ panes three_sessions -> p_title p = p_id p)
  /\ Some (active three_sessions) = last (startup_ids three_logs)
  /\ _last_tree_sid three_sessions = last (startup_ids three_logs)
  /\ Idle three_sessions.
Proof.
  apply (on_mount_restores quiet_world three_logs three_sessions).
  vm_compute. reflexivity.
Defined.

(** ** A new chat *)





(** ** Selecting in the tree *)

(** X12. A user selection in the tree (synchronizer idle) of the root, or
    of a leaf without an id, changes nothing.  A selection of a session
    that is already active or still has its tab only records the id in
    [_last_tree_sid] and makes that tab active: no tab or view is created,
    no bubble is added and no log is touched. *)
Theorem tree_selection_of_open_session (w : World) (event : tree_event)
    (s : App) :
  let sid := PyStr.strip (or_else (node_data event) "") in
  Idle s ->
  (node_is_root event = true \/ sid = "" ->
   on_tree_node_selected w event s = Ok tt s)
  /\ (node_is_root event = false ->
      sid <> "" ->
      active s = sid
      \/ is_Some (List.find (fun p => String.eqb (p_id p) sid) (panes s)) ->
      exists s',
        on_tree_node_selected w event s = Ok tt s'
        /\ active s' = sid
        /\ _last_tree_sid s' = Some sid
        /\ panes s' = panes s
        /\ views s' = views s
        /\ files s' = files s
        /\ tree_children s' = tree_children s
        /\ next_widget s' = next_widget s).
Proof.
  intros sid Hidle. unfold Idle in Hidle. split.
  - intros H. unfold on_tree_node_selected. rewrite bind_gets, Hidle.
    destruct H as [->|H]; [reflexivity|].
    destruct (node_is_root event); [reflexivity|]. simpl.
    fold sid. rewrite H. reflexivity.
  - intros Hroot Hsid Hopen.
    unfold on_tree_node_selected. rewrite bind_gets, Hidle, Hroot. simpl.
    fold sid.
    assert (Ht : truthy sid = true).
    { unfold truthy. apply negb_true_iff, String.eqb_neq. exact Hsid. }
    rewrite Ht. simpl. rewrite bind_modify, bind_gets. simpl.
    destruct (String.eqb (active s) sid) eqn:Ha.
    + apply String.eqb_eq in Ha. eexists. split; [reflexivity|].
      simpl. auto 10.
    + destruct Hopen as [Hopen|[p Hp]].
      { apply String.eqb_neq in Ha. contradiction. }
      unfold get_pane. rewrite bind_gets. simpl. rewrite Hp.
      eexists. split; [reflexivity|]. simpl. auto 10.
Qed.

Lemma tree_selection_of_open_session_witness :
  exists s',
    on_tree_node_selected quiet_world (NodeSelected false (Some " chat_001 "))
      restored = Ok tt s'
    /\ active s' = "chat_001"
    /\ _last_tree_sid s' = Some "chat_001"
    /\ panes s' = panes restored
    /\ views s' = views restored
    /\ files s' = files restored
    /\ tree_children s' = tree_children restored
    /\ next_widget s' = next_widget restored.
Proof.
  refine (proj2 (tree_selection_of_open_session quiet_world
                   (NodeSelected false (Some " chat_001 ")) restored _) _ _ _).
  - reflexivity.
  - reflexivity.
  - discriminate.
  - right. vm_compute. eauto.
Defined.

(** ** Closing a tab *)

Lemma index_of_first sid l1 p l2 :
  p_id p = sid ->
  sid ∉ (p_id <$> l1) ->
  index_of sid (l1 ++ p :: l2) = Some (length l1).
Proof.
  intros Hp. induction l1 as [|q l1 IH]; simpl; intros Hnot.
  - rewrite Hp, String.eqb_refl. reflexivity.
  - apply not_elem_of_cons in Hnot as [Hq Hnot].
    destruct (String.eqb (p_id q) sid) eqn:Hqe.
    + apply String.eqb_eq in Hqe. congruence.
    + rewrite (IH Hnot). reflexivity.
Qed.

Lemma remove_first_first sid l1 p l2 :
  p_id p = sid ->
  sid ∉ (p_id <$> l1) ->
  remove_first sid (l1 ++ p :: l2) = l1 ++ l2.
Proof.
  intros Hp. induction l1 as [|q l1 IH]; simpl; intros Hnot.
  - rewrite Hp, String.eqb_refl. reflexivity.
  - apply not_elem_of_cons in Hnot as [Hq Hnot].
    destruct (String.eqb (p_id q) sid) eqn:Hqe.
    + apply String.eqb_eq in Hqe. congruence.
    + rewrite (IH Hnot). reflexivity.
Qed.

Lemma neighbour_lookup l1 p l2 :
  l1 ++ l2 <> [] ->
  default "" (p_id <$> (l1 ++ p :: l2)
                !! (if (length l1 <? length (l1 ++ p :: l2) - 1)%nat
                    then length l1 + 1 else length l1 - 1))
  = neighbour l1 l2
  /\ neighbour l1 l2 ∈ (p_id <$> (l1 ++ l2)).
Proof.
  intros Hne. rewrite length_app.
  destruct l2 as [|q l2]; cbn [length neighbour].
  - rewrite app_nil_r in Hne.
    replace (length l1 <? length l1 + 1 - 1)%nat with false
      by (symmetry; apply Nat.ltb_ge; lia).
    rewrite lookup_app_l by (destruct l1; [congruence|cbn [length]; lia]).
    rewrite Nat.sub_1_r, <- last_lookup.
    destruct (last l1) as [q|] eqn:Hl.
    + split; [reflexivity|]. rewrite app_nil_r. apply list_elem_of_fmap.
      exists q. split; [reflexivity|]. apply last_Some_elem_of. exact Hl.
    + apply last_None in Hl. congruence.
  - replace (length l1 <? length l1 + S (S (length l2)) - 1)%nat with true
      by (symmetry; apply Nat.ltb_lt; lia).
    rewrite lookup_app_r by lia.
    replace (length l1 + 1 - length l1) with 1 by lia. simpl.
    split; [reflexivity|]. rewrite fmap_app. apply elem_of_app. right.
    simpl. apply elem_of_cons. auto.
Qed.

(** X13. Closing the tab of [sid] while other tabs are open removes that
    tab and its view and makes a neighbour the active tab: the tab that
    followed it, or the one before it when it was the last.  The logs are
    not touched.  This holds whether the following tree selection returns
    or raises. *)
Theorem close_tab_activates_neighbour (w : World) (sid : string) (s : App)
    (l1 l2 : list pane) (p : pane) :
  panes s = l1 ++ p :: l2 ->
  p_id p = sid ->
  sid ∉ (p_id <$> l1) ->
  l1 ++ l2 <> [] ->
  let s' := state_of (_close_tab_only w sid s) in
  panes s' = l1 ++ l2
  /\ views s' !! sid = None
  /\ active s' = neighbour l1 l2
  /\ files s' = files s.
Proof.
  intros Hp Hid Hfirst Hne.
  destruct (neighbour_lookup l1 p l2 Hne) as [Hlook Hin].
  set (I := fun s' : App =>
              panes s' = l1 ++ l2 /\ views s' !! sid = None
              /\ active s' = neighbour l1 l2 /\ files s' = files s).
  assert (Hst : stable I (silently (_select_tree_node w (neighbour l1 l2)))).
  { unfold silently. unfold_handlers. stable_auto. }
  intros s'. change (I s'). subst s'.
  unfold _close_tab_only. rewrite bind_gets, Hp.
  replace (length (l1 ++ p :: l2) <=? 1)%nat with false.
  2:{ symmetry. apply Nat.leb_gt. rewrite length_app. simpl.
      destruct l1, l2; simpl; try lia. exfalso. apply Hne. reflexivity. }
  cbv zeta. rewrite (index_of_first sid l1 p l2 Hid Hfirst).
  change (default 0 (Some (length l1))) with (length l1). rewrite Hlook.
  unfold remove_pane. rewrite !bind_modify, bind_gets.
  cbn [panes set_views set_panes]. rewrite Hp.
  rewrite (remove_first_first sid l1 p l2 Hid Hfirst).
  destruct (p_id <$> l1 ++ l2) as [|r0 rest] eqn:Hrem.
  { apply fmap_nil_inv in Hrem. contradiction. }
  rewrite bool_decide_eq_true_2 by exact Hin.
  rewrite bind_modify.
  apply (stable_state_of _ _ _ Hst).
  unfold I. simpl. rewrite Hp, (remove_first_first sid l1 p l2 Hid Hfirst).
  rewrite lookup_delete_eq. auto.
Qed.

Lemma close_tab_activates_neighbour_witness :
  let s' := state_of (_close_tab_only quiet_world "chat_002" three_sessions) in
  panes s' = [Pane "chat_001" "chat_001"] ++ [Pane "chat_003" "chat_003"]
  /\ views s' !! "chat_002" = None
  /\ active s'
     = neighbour [Pane "chat_001" "chat_001"] [Pane "chat_003" "chat_003"]
  /\ files s' = files three_sessions.
Proof.
  apply (close_tab_activates_neighbour quiet_world "chat_002" three_sessions
           [Pane "chat_001" "chat_001"] [Pane "chat_003" "chat_003"]
           (Pane "chat_002" "chat_002")).
  - vm_compute. reflexivity.
  - reflexivity.
  - intros H. apply list_elem_of_singleton in H. discriminate.
  - discriminate.
Defined.

(** ** A completed send *)





(** ** Renaming with a title *)












(** ** Copy mode *)

Section CopyModeFacts.

Context (blank_error : exn)
        (get_tab : string -> option (string * option string)).

Lemma read_transcript_records pre rest acc :
  forallb is_record pre = true ->
  read_transcript blank_error (pre ++ rest) acc
  = read_transcript blank_error rest (acc ++ omap transcript_line pre).
Proof.
  revert acc. induction pre as [|l pre IH]; intros acc Hpre; simpl.
  - rewrite app_nil_r. reflexivity.
  - simpl in Hpre. apply andb_prop in Hpre as [Hl Hpre].
    destruct l; try discriminate. simpl.
    rewrite IH by exact Hpre. rewrite <- app_assoc. reflexivity.
Qed.

Lemma read_transcript_stops bad post acc :
  is_record bad = false ->
  read_transcript blank_error (bad :: post) acc
  = (acc, copy_error blank_error bad).
Proof. destruct bad; simpl; intros H; try discriminate; reflexivity. Qed.

Lemma pane_title_str_reads pane_id s :
  exists title, _pane_title_str get_tab pane_id s = Ok title s.
Proof.
  unfold _pane_title_str. rewrite !bind_gets. cbv zeta.
  destruct (get_tab pane_id) as [[lt [l|]]|]; try destruct (truthy lt);
    eexists; reflexivity.
Qed.

End CopyModeFacts.

(** X18. Copy mode builds its transcript from the log of the active
    session without changing any state: one paragraph [ROLE: content] per
    record in order, separated by blank lines, or the text [(empty)] when
    there is none.  The first line that is not a record ends the
    transcript and is reported in a notification; this includes a blank
    line, which [load_history] would skip. *)
Theorem copy_mode_transcript (blank_error : exn)
    (get_tab : string -> option (string * option string)) (s : App)
    (log : list jsonl_line) :
  truthy (active s) = true ->
  files s !! session_file (active s) = Some log ->
  (forallb is_record log = true ->
   exists title,
     action_copy_mode blank_error get_tab s
     = Ok (Some (MkCopyScreen title (transcript_text (omap transcript_line log)),
                 None)) s)
  /\ (forall pre bad post e,
        log = pre ++ bad :: post ->
        forallb is_record pre = true ->
        copy_error blank_error bad = Some e ->
        exists title,
          action_copy_mode blank_error get_tab s
          = Ok (Some (MkCopyScreen title
                        (transcript_text (omap transcript_line pre)),
                      Some ("Couldn’t read history: " +:+ e))) s).
Proof.
  intros Hsid Hlog.
  assert (Hstart : forall lines err,
    read_transcript blank_error log [] = (lines, err) ->
    exists title,
      action_copy_mode blank_error get_tab s
      = Ok (Some (MkCopyScreen title (transcript_text lines),
                  (fun e => "Couldn’t read history: " +:+ e) <$> err)) s).
  { intros lines err Hread. unfold action_copy_mode, _active_session_id.
    rewrite bind_gets, Hsid. cbn [negb]. rewrite bind_gets, Hlog, Hread.
    destruct (pane_title_str_reads get_tab (active s) s) as [title Ht].
    exists title. rewrite (bind_ok _ _ _ _ _ Ht). reflexivity. }
  split.
  - intros Hrec. apply (Hstart _ None).
    rewrite <- (app_nil_r log) at 1.
    rewrite read_transcript_records by exact Hrec. reflexivity.
  - intros pre bad post e -> Hpre Hbad.
    apply (Hstart _ (Some e)).
    rewrite read_transcript_records by exact Hpre.
    rewrite read_transcript_stops, Hbad; [reflexivity|].
    destruct bad; [reflexivity|discriminate|reflexivity|reflexivity].
Qed.

Lemma copy_mode_transcript_witness :
  let s := state_of (on_mount quiet_world (fresh_app log_with_blank_line)) in
  exists title,
    action_copy_mode "Expecting value: line 2 column 1 (char 1)"
      (fun _ => None) s
    = Ok (Some (MkCopyScreen title
                  (transcript_text
                     (omap transcript_line [Rec (Some "user") (Some "hi")])),
                Some ("Couldn’t read history: "
                      +:+ "Expecting value: line 2 column 1 (char 1)"))) s.
Proof.
  intros s.
  refine (proj2 (copy_mode_transcript
                   "Expecting value: line 2 column 1 (char 1)"
                   (fun _ => None) s
                   [Rec (Some "user") (Some "hi"); Blank;
                    Rec (Some "assistant") (Some "hello")] _ _)
            [Rec (Some "user") (Some "hi")] Blank
            [Rec (Some "assistant") (Some "hello")] _ _ _ _).
  all: vm_compute; reflexivity.
Defined.

(** The same log at start-up: the view shows both records, the copy
    screen only the first. *)
Example blank_line_view_and_copy :
  let s := state_of (on_mount quiet_world (fresh_app log_with_blank_line)) in
  turns_shown s "chat_001" = [("user", "hi"); ("assistant", "hello")]
  /\ exists title,
       action_copy_mode "Expecting value: line 2 column 1 (char 1)"
         (fun _ => None) s
       = Ok (Some (MkCopyScreen title "USER: hi",
                   Some "Couldn’t read history: Expecting value: line 2 column 1 (char 1)"))
            s.
Proof.
  split; [vm_compute; reflexivity|].
  eexists. vm_compute. reflexivity.
Qed.

(** ** The history shown at start-up *)





Section OtherViews.

Context (w : World) (id : string) (Φ : option view -> App -> Prop).

(** [Φ] speaks of the view of [id] and of fields the loaders do not
    write. *)
Context (Φ_widget : forall v n s, Φ v s -> Φ v (set_next_widget n s))
        (Φ_views : forall v f s, Φ v s -> Φ v (set_views f s))
        (Φ_panes : forall v f s, Φ v s -> Φ v (set_panes f s))
        (Φ_children : forall v f s, Φ v s -> Φ v (set_tree_children f s))
        (Φ_nodes : forall v f s, Φ v s -> Φ v (set_tree_nodes f s)).





End OtherViews.



Section ShowsHistory.

Context (w : World) (fs : directory).




End ShowsHistory.


